(** * Google Chat notifier of Prowler: a shallow embedding

    Embeds [prowler/lib/outputs/google_chat/google_chat.py],
    [prowler/lib/outputs/google_chat/exceptions/exceptions.py] and the
    helpers of [prowler/lib/outputs/utils.py] the notifier calls.

    Conventions.
    - A Python [str] is a Rocq [string] holding its UTF-8 bytes; the code only
      concatenates strings, tests them for emptiness and for a prefix, and
      these commute with the encoding.
    - A Python [int] is a [Z]; a Python [float] is an IEEE-754 binary64 value,
      [spec_float] with precision 53 and [emax] 1024.
    - The class attribute [GOOGLE_CHAT_ERROR_CODES] is one dictionary shared
      by every exception constructed, so constructing an exception is a
      computation over that dictionary: the monad [M] threads it and carries
      raised exceptions.
    - Logging is not modelled: [logger.error] has no effect on any result. *)

From Stdlib Require Import ZArith String Ascii List DecimalString SpecFloat Lia.
From stdpp Require Import gmap strings.

Set Warnings "-register-all".

Open Scope string_scope.
Open Scope Z_scope.

(** ** Python builtins used by the code *)

Module Py.

(** The newline escape of a Python literal. *)
Definition nl : string := String (ascii_of_nat 10) "".

(** [str(n)] for an [int], which is also what an f-string prints; the
    interpreter's limit on the number of digits it converts is not
    modelled. *)
Definition str_of_int (n : Z) : string := NilZero.string_of_int (Z.to_int n).

(** Truth value of a [str]: the empty string is false. *)
Definition truthy (s : string) : bool := negb (String.eqb s "").

(** [o or d] where [o] is a [str] or [None]. *)
Definition or_else (o : option string) (d : string) : string :=
  match o with
  | Some s => if truthy s then s else d
  | None => d
  end.

(** [s.startswith(p)]. *)
Definition startswith (s p : string) : bool := String.prefix p s.

(** [sep.join(l)]. *)
Definition join (sep : string) (l : list string) : string := String.concat sep l.

(** [sub in s]. *)
Definition contains (sub s : string) : Prop :=
  exists pre post : string, s = pre ++ sub ++ post.

(** Python values: what a caller can pass where the code expects an
    [Optional[str]], and what [response.json()] and [send] return. *)
Inductive value : Type :=
| VNone
| VBool (b : bool)
| VInt (n : Z)
| VFloat (x : spec_float)
| VStr (s : string)
| VList (l : list value)
| VDict (d : list (string * value)).

(** [bool(v)]. *)
Definition truth (v : value) : bool :=
  match v with
  | VNone => false
  | VBool b => b
  | VInt n => negb (n =? 0)
  | VFloat x =>
      match x with
      | S754_zero _ => false
      | _ => true
      end
  | VStr s => truthy s
  | VList l => match l with nil => false | _ => true end
  | VDict d => match d with nil => false | _ => true end
  end.

(** [isinstance(v, str)]. *)
Definition is_str (v : value) : bool :=
  match v with
  | VStr _ => true
  | _ => false
  end.

End Py.

(** ** Exception classes

    The builtin, [requests] and Prowler exception classes the code names or
    can meet.  [ConnectionError] and [Timeout] are the ones of
    [requests.exceptions]; [JSONDecodeError] is [requests]' own, which
    derives from both [RequestException] and [ValueError]. *)

Module Cls.

Inductive exc_class : Type :=
| Exception
| ValueError
| KeyError
| TypeError
| AttributeError
| ZeroDivisionError
| OverflowError
| RequestException
| ConnectionError
| Timeout
| JSONDecodeError
| ProwlerException
| GoogleChatBaseException
| GoogleChatClientError
| GoogleChatInvalidWebhookError
| GoogleChatSendMessageError.

#[global] Instance exc_class_eq_dec : EqDecision exc_class.
Proof. solve_decision. Defined.

(** [cls.__name__]. *)
Definition name (c : exc_class) : string :=
  match c with
  | Exception => "Exception"
  | ValueError => "ValueError"
  | KeyError => "KeyError"
  | TypeError => "TypeError"
  | AttributeError => "AttributeError"
  | ZeroDivisionError => "ZeroDivisionError"
  | OverflowError => "OverflowError"
  | RequestException => "RequestException"
  | ConnectionError => "ConnectionError"
  | Timeout => "Timeout"
  | JSONDecodeError => "JSONDecodeError"
  | ProwlerException => "ProwlerException"
  | GoogleChatBaseException => "GoogleChatBaseException"
  | GoogleChatClientError => "GoogleChatClientError"
  | GoogleChatInvalidWebhookError => "GoogleChatInvalidWebhookError"
  | GoogleChatSendMessageError => "GoogleChatSendMessageError"
  end.

Definition is_google_chat (c : exc_class) : bool :=
  match c with
  | GoogleChatBaseException | GoogleChatClientError
  | GoogleChatInvalidWebhookError | GoogleChatSendMessageError => true
  | _ => false
  end.

(** [issubclass(c, d)]. *)
Definition issubclass (c d : exc_class) : bool :=
  match d with
  | Exception => true
  | ValueError =>
      match c with
      | ValueError | JSONDecodeError => true
      | _ => false
      end
  | RequestException =>
      match c with
      | RequestException | ConnectionError | Timeout | JSONDecodeError => true
      | _ => false
      end
  | ProwlerException =>
      match c with
      | ProwlerException => true
      | _ => is_google_chat c
      end
  | GoogleChatBaseException => is_google_chat c
  | _ => bool_decide (c = d)
  end.

End Cls.

(** ** Floats: [int / int], [float * int], [round(x, 2)] and [repr] *)

Module PyFloat.

Definition float : Type := spec_float.
Definition prec : Z := 53.
Definition emax : Z := 1024.

(** An integer as an exact operand of a correctly rounded operation. *)
Definition exact_int (n : Z) : float :=
  match n with
  | Z0 => S754_zero false
  | Zpos p => S754_finite false p 0
  | Zneg p => S754_finite true p 0
  end.

(** The binary64 value nearest to [n / d] (ties to even), [d <> 0]. *)
Definition nearest (n d : Z) : float :=
  SFdiv prec emax (exact_int n) (exact_int d).

(** [float(n)] for an [int] that fits. *)
Definition of_int (n : Z) : float := binary_normalize prec emax n 0 false.

Definition zero : float := S754_zero false.

(** [a / b] on two [int]s: the correctly rounded quotient; Python raises
    [ZeroDivisionError] on a zero divisor and [OverflowError] when the
    quotient is too large for a float. *)
Definition int_truediv (a b : Z) : Cls.exc_class + float :=
  if b =? 0 then inl Cls.ZeroDivisionError
  else
    match nearest a b with
    | S754_infinity _ => inl Cls.OverflowError
    | q => inr q
    end.

(** [x * n] for a [float] and an [int] that fits: IEEE multiplication. *)
Definition mul_int (x : float) (n : Z) : float := SFmul prec emax x (of_int n).

(** Nearest integer to [n / d], [d > 0], ties to even. *)
Definition div_half_even (n d : Z) : Z :=
  let q := n / d in
  let r := n mod d in
  match 2 * r ?= d with
  | Lt => q
  | Gt => q + 1
  | Eq => if Z.even q then q else q + 1
  end.

(** [round(x, 2)]: the decimal with two places nearest to the exact value
    of [x], read back as a float; zeros, infinities and NaN are returned
    as they are. *)
Definition round2 (x : float) : float :=
  match x with
  | S754_finite s m e =>
      let k :=
        if 0 <=? e then 100 * Zpos m * 2 ^ e
        else div_half_even (100 * Zpos m) (2 ^ (- e)) in
      match k with
      | Zpos p => SFdiv prec emax (S754_finite s p 0) (exact_int 100)
      | _ => S754_zero s
      end
  | _ => x
  end.

Definition eqb (x y : float) : bool :=
  match x, y with
  | S754_finite sx mx ex, S754_finite sy my ey =>
      Bool.eqb sx sy && (Zpos mx =? Zpos my) && (ex =? ey)
  | _, _ => false
  end.

(** *** [repr]: the shortest digit string that reads back as the float *)

(** The decimal point position [p] of the positive rational [n / d]:
    [10 ^ (p - 1) <= n / d < 10 ^ p]. *)
Fixpoint decpt_up (fuel : nat) (n d : Z) (p : Z) : Z :=
  match fuel with
  | O => p
  | S fuel' => if n <? d then p else decpt_up fuel' n (10 * d) (p + 1)
  end.

Fixpoint decpt_down (fuel : nat) (n d : Z) (p : Z) : Z :=
  match fuel with
  | O => p
  | S fuel' => if d <=? n then p else decpt_down fuel' (10 * n) d (p - 1)
  end.

Definition decpt (n d : Z) : Z :=
  if d <=? n then decpt_up 400 n d 0 else decpt_down 400 (10 * n) d 0.

(** The float read from the decimal [c * 10 ^ p]. *)
Definition of_decimal (c p : Z) : float :=
  if 0 <=? p then nearest (c * 10 ^ p) 1 else nearest c (10 ^ (- p)).

(** With [k] significant digits: the [k]-digit decimal nearest to
    [n / d], or its neighbour on the other side, when one of them reads
    back as [x]. *)
Definition digits_at (x : float) (n d pt : Z) (k : Z) : option Z :=
  let p := pt - k in
  let a := if 0 <=? p then n else n * 10 ^ (- p) in
  let b := if 0 <=? p then d * 10 ^ p else d in
  let lo := a / b in
  let first := div_half_even a b in
  let second := if first =? lo then lo + 1 else lo in
  if eqb (of_decimal first p) x then Some first
  else if eqb (of_decimal second p) x then Some second
  else None.

Fixpoint shortest (fuel : nat) (x : float) (n d pt : Z) (k : Z) : Z * Z :=
  match fuel with
  | O => (0, k)
  | S fuel' =>
      match digits_at x n d pt k with
      | Some c => (c, k)
      | None => shortest fuel' x n d pt (k + 1)
      end
  end.

Fixpoint strip_zeros (fuel : nat) (c : Z) : Z :=
  match fuel with
  | O => c
  | S fuel' => if (c mod 10 =? 0) && negb (c =? 0) then strip_zeros fuel' (c / 10) else c
  end.

Fixpoint zeros (k : nat) : string :=
  match k with
  | O => ""
  | S k' => "0" ++ zeros k'
  end.

(** Digits and decimal point position of a positive finite float. *)
Definition shortest_digits (m : positive) (e : Z) : string * Z :=
  let n := if 0 <=? e then Zpos m * 2 ^ e else Zpos m in
  let d := if 0 <=? e then 1 else 2 ^ (- e) in
  let pt := decpt n d in
  let '(c, k) := shortest 17 (S754_finite false m e) n d pt 1 in
  let all := Py.str_of_int c in
  let ds := Py.str_of_int (strip_zeros 17 c) in
  (ds, pt + (Z.of_nat (String.length all) - k)).

Definition exponent_str (e : Z) : string :=
  let a := Py.str_of_int (Z.abs e) in
  (if e <? 0 then "-" else "+") ++ (if Z.abs e <? 10 then "0" ++ a else a).

Definition format_digits (ds : string) (pt : Z) : string :=
  let len := Z.of_nat (String.length ds) in
  if (pt <=? -4) || (16 <? pt) then
    String.substring 0 1 ds
    ++ (if 1 <? len then "." ++ String.substring 1 (String.length ds - 1) ds else "")
    ++ "e" ++ exponent_str (pt - 1)
  else if pt <=? 0 then "0." ++ zeros (Z.to_nat (- pt)) ++ ds
  else if len <=? pt then ds ++ zeros (Z.to_nat (pt - len)) ++ ".0"
  else String.substring 0 (Z.to_nat pt) ds ++ "."
       ++ String.substring (Z.to_nat pt) (String.length ds - Z.to_nat pt) ds.

(** [repr(x)], which is also [str(x)] and what an f-string prints. *)
Definition repr (x : float) : string :=
  match x with
  | S754_zero s => if s then "-0.0" else "0.0"
  | S754_infinity s => if s then "-inf" else "inf"
  | S754_nan => "nan"
  | S754_finite s m e =>
      let '(ds, pt) := shortest_digits m e in
      (if s then "-" else "") ++ format_digits ds pt
  end.

End PyFloat.

(** ** Exception objects and the exception monad *)

(** A value of the inner dictionaries of [GOOGLE_CHAT_ERROR_CODES]: the keys
    ["message"] and ["remediation"]. *)
Record ErrorInfo : Type := { message : string; remediation : string }.

(** Modelled from the spec: the base class [ProwlerException] of
    prowler/exceptions/exceptions.py is not among the sources.  The spec has
    every error derive "from one base with a numeric code and remediation
    text", the message being the table's default with "a constructor-time
    override".  A Prowler exception is therefore the data its constructor
    hands to the base constructor: its class, [code], [source], [file],
    [original_exception] and the [error_info] dictionary as it stands at that
    moment.
    [PyExc] is any other exception, with its class and its text. *)
Inductive exn : Type :=
| PyExc (cls : Cls.exc_class) (detail : string)
| ProwlerExc (cls : Cls.exc_class) (code : Z) (source file : string)
    (original_exception : option exn) (error_info : ErrorInfo).

Definition exc_class (e : exn) : Cls.exc_class :=
  match e with
  | PyExc c _ => c
  | ProwlerExc c _ _ _ _ _ => c
  end.

Definition exc_code (e : exn) : option Z :=
  match e with
  | PyExc _ _ => None
  | ProwlerExc _ c _ _ _ _ => Some c
  end.

Definition exc_message (e : exn) : string :=
  match e with
  | PyExc _ d => d
  | ProwlerExc _ _ _ _ _ i => message i
  end.

Definition exc_remediation (e : exn) : option string :=
  match e with
  | PyExc _ _ => None
  | ProwlerExc _ _ _ _ _ i => Some (remediation i)
  end.

Definition exc_original (e : exn) : option exn :=
  match e with
  | PyExc _ _ => None
  | ProwlerExc _ _ _ _ o _ => o
  end.

(** [isinstance(e, c)]. *)
Definition isinstance (e : exn) (c : Cls.exc_class) : bool :=
  Cls.issubclass (exc_class e) c.

Inductive outcome (A : Type) : Type :=
| Return (a : A)
| Raise (e : exn).
Arguments Return {A} a.
Arguments Raise {A} e.

(** The shared dictionary, keyed by [(code, class name)]. *)
Abbreviation error_codes := (gmap (Z * string) ErrorInfo).

(** A computation that reads and updates the shared dictionary and either
    returns or raises. *)
Definition M (A : Type) : Type := error_codes -> outcome A * error_codes.

#[global] Instance M_ret : MRet M := fun A a codes => (Return a, codes).

#[global] Instance M_bind : MBind M := fun A B f m codes =>
  match m codes with
  | (Return a, codes') => f a codes'
  | (Raise e, codes') => (Raise e, codes')
  end.

Definition raise {A : Type} (e : exn) : M A := fun codes => (Raise e, codes).

Definition lift {A : Type} (o : outcome A) : M A := fun codes => (o, codes).

(** [try: body  except ... as e: handler e]. *)
Definition try_except {A : Type} (body : M A) (handler : exn -> M A) : M A :=
  fun codes =>
    match body codes with
    | (Return a, codes') => (Return a, codes')
    | (Raise e, codes') => handler e codes'
    end.

(** ** exceptions.py *)

Module GoogleChatBaseException.

Definition GOOGLE_CHAT_ERROR_CODES : error_codes :=
  <[ (9000, "GoogleChatClientError") :=
       {| message := "Google Chat client error occurred";
          remediation := "Verify the webhook URL, networking rules, and retry the request." |} ]>
  (<[ (9001, "GoogleChatInvalidWebhookError") :=
       {| message := "Invalid Google Chat webhook URL";
          remediation := "Ensure the webhook URL matches the expected Google Chat format." |} ]>
  (<[ (9002, "GoogleChatSendMessageError") :=
       {| message := "Google Chat message was not accepted";
          remediation := "Review the response payload for details and adjust the request body." |} ]>
   ∅)).

(** [error_info["message"] = m]. *)
Definition set_message (m : string) (i : ErrorInfo) : ErrorInfo :=
  {| message := m; remediation := remediation i |}.

(** [if message:] for an optional string. *)
Definition given (message : option string) : option string :=
  match message with
  | Some m => if Py.truthy m then Some m else None
  | None => None
  end.

(** [__init__(self, code, file, original_exception, message)], [cls] being
    [self.__class__].  [.get] returns the table's own entry when the key is
    present, so the assignment to [error_info["message"]] then updates the
    table; when the key is absent it only updates the fresh default. *)
Definition __init__ (cls : Cls.exc_class) (code : Z) (file : option string)
    (original_exception : option exn) (message : option string) : M exn :=
  fun codes =>
    let key := (code, Cls.name cls) in
    let error_info :=
      default {| message := "Unknown Google Chat error"; remediation := "" |}
              (codes !! key) in
    let '(error_info, codes) :=
      match given message with
      | Some m => (set_message m error_info, alter (set_message m) key codes)
      | None => (error_info, codes)
      end in
    (Return (ProwlerExc cls code "Google Chat" (Py.or_else file "exceptions.py")
               original_exception error_info),
     codes).

End GoogleChatBaseException.

Definition GoogleChatClientError (file : option string)
    (original_exception : option exn) (message : option string) : M exn :=
  GoogleChatBaseException.__init__ Cls.GoogleChatClientError 9000
    file original_exception message.

Definition GoogleChatInvalidWebhookError (file : option string)
    (original_exception : option exn) (message : option string) : M exn :=
  GoogleChatBaseException.__init__ Cls.GoogleChatInvalidWebhookError 9001
    file original_exception message.

Definition GoogleChatSendMessageError (file : option string)
    (original_exception : option exn) (message : option string) : M exn :=
  GoogleChatBaseException.__init__ Cls.GoogleChatSendMessageError 9002
    file original_exception message.

(** ** The Cards v2 payload

    The dictionaries [__build_message] assembles have fixed keys, so they are
    records; the lists keep their order. *)

Record Icon : Type := { altText : string; icon_imageUrl : string }.

(** A widget is a dictionary with the single key ["decoratedText"] or
    ["textParagraph"]; [bottomText] and [startIcon] are keys some
    decorated texts have. *)
Inductive Widget : Type :=
| decoratedText (text : string) (bottomText : option string) (startIcon : option Icon)
| textParagraph (text : string).

Definition widget_text (w : Widget) : string :=
  match w with
  | decoratedText t _ _ => t
  | textParagraph t => t
  end.

Record CardSection : Type := { widgets : list Widget }.

Record Header : Type :=
  { title : string; subtitle : string; imageUrl : string; imageType : string }.

Record CardBody : Type := { header : Header; sections : list CardSection }.

Record Card : Type := { cardId : string; card : CardBody }.

Record Payload : Type := { cardsV2 : list Card }.

(** ** Collaborators *)

(** What [requests.post] hands back: [response.status_code], [response.text]
    and the result of calling [response.json()], which returns the parsed
    body or raises. *)
Record Response : Type :=
  { status_code : Z; text : string; json : outcome Py.value }.

(** The provider handle: the attributes [get_provider_identity_and_logo]
    reads, each absent ([None]) when reading it raises. *)
Record Provider : Type :=
  { type : option string;
    identity_account : option string;
    project_ids : option (list string);
    identity_subscriptions : option (list (string * string)) }.

(** Modelled from the spec: [Connection] of prowler/providers/common/models.py
    is not among the sources.  The spec's Connection Result is "either
    connected or not connected with an attached error": [Connection(is_connected=True)]
    has no error, [Connection(error=e)] is not connected. *)
Record Connection : Type := { is_connected : bool; error : option exn }.

(** What the module finds around it: the logo constants of
    prowler/config/config.py (not among the sources), the process environment
    as it is when google_chat.py is imported ([DEFAULT_SUBTITLE] is a
    module-level constant), and [requests.post(url, json=payload, timeout=t)]. *)
Record Config : Type :=
  { aws_logo : string;
    azure_logo : string;
    gcp_logo : string;
    square_logo_img : string;
    import_environ : gmap string string;
    requests_post : string -> Payload -> Z -> outcome Response }.

(** ** utils.py *)

Section Utils.

Context (cfg : Config).

Definition printed_subscription (kv : string * string) : string :=
  "- *" ++ fst kv ++ ": " ++ snd kv ++ "*" ++ Py.nl.

(** The [try] block as a computation that stops at the first attribute
    that cannot be read; [identity] and [logo] are assigned only after
    every read of a branch succeeded, so a failure leaves the initial
    pair. *)
Definition get_provider_identity_and_logo (provider : Provider) : string * string :=
  let identity := "" in
  let logo := aws_logo cfg in
  let attempt : option (string * string) :=
    ty ← type provider;
    if String.eqb ty "aws" then
      account ← identity_account provider;
      Some ("AWS Account *" ++ account ++ "*", logo)
    else if String.eqb ty "gcp" then
      ids ← project_ids provider;
      Some ("GCP Projects *" ++ Py.join ", " ids ++ "*", gcp_logo cfg)
    else if String.eqb ty "azure" then
      subs ← identity_subscriptions provider;
      Some ("Azure Subscriptions:" ++ Py.nl
              ++ Py.join "" (map printed_subscription subs),
            azure_logo cfg)
    else Some (identity, logo) in
  default (identity, logo) attempt.

(** [stats['findings_count']] raises [KeyError] when the key is missing;
    the [except Exception] clause then returns the empty string. *)
Definition build_summary_title (identity : string) (stats : gmap string Z) : string :=
  let attempt : Cls.exc_class + string :=
    match stats !! "findings_count" with
    | Some findings_count =>
        inr ("Hey there 👋 " ++ Py.nl ++ " I'm *Prowler*, _the handy multi-cloud security tool_ "
             ++ ":cloud::key:" ++ Py.nl ++ Py.nl
             ++ " I have just finished the security assessment on your "
             ++ identity ++ " with a total of *" ++ Py.str_of_int findings_count
             ++ "* findings.")
    | None => inl Cls.KeyError
    end in
  match attempt with
  | inr s => s
  | inl _ => ""
  end.

Definition get_prowler_avatar : string := square_logo_img cfg.

End Utils.

(** ** google_chat.py *)

Definition DEFAULT_CARD_HEADER : string := "Prowler Scan Summary".

(** [os.getenv("AUTH_URL") or os.getenv("PROWLER_URL") or "https://prowler.com"],
    evaluated once, when the module is imported. *)
Definition DEFAULT_SUBTITLE (cfg : Config) : string :=
  Py.or_else (import_environ cfg !! "AUTH_URL")
    (Py.or_else (import_environ cfg !! "PROWLER_URL") "https://prowler.com").

Definition REQUEST_TIMEOUT_SECONDS : Z := 10.

(** The instance attributes set by [GoogleChat.__init__]. *)
Record GoogleChat : Type :=
  { _webhook_url : string;
    _provider : Provider;
    _space_name : option string;
    _card_header : string }.

(** [os.path.basename(__file__)] inside google_chat.py. *)
Definition this_file : string := "google_chat.py".

(** [stats.get(key, 0)]. *)
Definition stats_get (stats : gmap string Z) (key : string) : Z :=
  default 0 (stats !! key).

Module GoogleChat.
Section Methods.

Context (cfg : Config).

(** The first test keeps every value that is not a [str] out of the second,
    where calling [startswith] on it would raise [AttributeError]. *)
Definition __validate_webhook_url (webhook_url : Py.value) : M string :=
  if negb (Py.truth webhook_url) || negb (Py.is_str webhook_url) then
    exception ← GoogleChatInvalidWebhookError (Some this_file) None
                  (Some "Google Chat webhook URL is required.");
    raise exception
  else
    match webhook_url with
    | Py.VStr url =>
        if negb (Py.startswith url "https://chat.googleapis.com/") then
          exception ← GoogleChatInvalidWebhookError (Some this_file) None
                        (Some "Google Chat webhook URL must start with https://chat.googleapis.com/.");
          raise exception
        else mret url
    | _ => raise (PyExc Cls.AttributeError "startswith")
    end.

Definition __init__ (webhook_url : Py.value) (provider : Provider)
    (space_name card_header : option string) : M GoogleChat :=
  url ← __validate_webhook_url webhook_url;
  mret {| _webhook_url := url;
          _provider := provider;
          _space_name := space_name;
          _card_header := Py.or_else card_header DEFAULT_CARD_HEADER |}.

Definition webhook_url (self : GoogleChat) : string := _webhook_url self.

Definition __safe_response_content (response : Response) : outcome Py.value :=
  if Py.truthy (text response) then
    match json response with
    | Return body => Return body
    | Raise e =>
        if isinstance e Cls.ValueError then Return (Py.VStr (text response))
        else Raise e
    end
  else Return Py.VNone.

(** The [try] evaluates [round((count / total) * 100, 2)]; any exception it
    raises is logged and the function falls through to [return 0.0]. *)
Definition percentage_expression (count total : Z) : Cls.exc_class + PyFloat.float :=
  match PyFloat.int_truediv count total with
  | inr q => inr (PyFloat.round2 (PyFloat.mul_int q 100))
  | inl e => inl e
  end.

Definition __calculate_percentage (count total : Z) : PyFloat.float :=
  if negb (Py.truth (Py.VInt total)) then PyFloat.zero
  else
    match percentage_expression count total with
    | inr p => p
    | inl _ => PyFloat.zero
    end.

Definition __build_parameters_section (args : string) : CardSection :=
  let parameters_text :=
    if Py.truthy args
    then "*Used parameters*" ++ Py.nl ++ "`prowler " ++ args ++ "`"
    else "*Used parameters*" ++ Py.nl ++ "`prowler`" in
  {| widgets := [ textParagraph parameters_text ] |}.

Definition __build_statistics_section (stats : gmap string Z) : CardSection :=
  let pass_percentage :=
    __calculate_percentage (stats_get stats "total_pass") (stats_get stats "findings_count") in
  let fail_percentage :=
    __calculate_percentage (stats_get stats "total_fail") (stats_get stats "findings_count") in
  let pass_severity :=
    "*Severities:* "
    ++ "Critical " ++ Py.str_of_int (stats_get stats "total_critical_severity_pass") ++ " • "
    ++ "High " ++ Py.str_of_int (stats_get stats "total_high_severity_pass") ++ " • "
    ++ "Medium " ++ Py.str_of_int (stats_get stats "total_medium_severity_pass") ++ " • "
    ++ "Low " ++ Py.str_of_int (stats_get stats "total_low_severity_pass") in
  let fail_severity :=
    "*Severities:* "
    ++ "Critical " ++ Py.str_of_int (stats_get stats "total_critical_severity_fail") ++ " • "
    ++ "High " ++ Py.str_of_int (stats_get stats "total_high_severity_fail") ++ " • "
    ++ "Medium " ++ Py.str_of_int (stats_get stats "total_medium_severity_fail") ++ " • "
    ++ "Low " ++ Py.str_of_int (stats_get stats "total_low_severity_fail") in
  {| widgets :=
      [ decoratedText
          ("✅ *" ++ Py.str_of_int (stats_get stats "total_pass")
           ++ " Passed findings* (" ++ PyFloat.repr pass_percentage ++ "%)")
          (Some pass_severity) None;
        decoratedText
          ("❌ *" ++ Py.str_of_int (stats_get stats "total_fail")
           ++ " Failed findings* (" ++ PyFloat.repr fail_percentage ++ "%)")
          (Some fail_severity) None;
        decoratedText
          ("📊 *" ++ Py.str_of_int (stats_get stats "resources_count")
           ++ " Scanned Resources*")
          (Some ("Total findings analysed: "
                 ++ Py.str_of_int (stats_get stats "findings_count")))
          None ] |}.

Definition __build_identity_section (identity logo : string)
    (stats : gmap string Z) : CardSection :=
  let summary_text :=
    build_summary_title (Py.or_else (Some identity) "your environment") stats in
  {| widgets :=
      [ decoratedText
          ("*Environment*" ++ Py.nl ++ Py.or_else (Some identity) "Unknown provider")
          None
          (Some {| altText := "Provider Logo"; icon_imageUrl := logo |});
        textParagraph summary_text ] |}.

Definition __build_message (self : GoogleChat) (identity logo : string)
    (stats : gmap string Z) (args : string) : Payload :=
  let card :=
    {| cardId := "prowler-summary";
       card :=
         {| header :=
              {| title := _card_header self;
                 subtitle := Py.or_else (_space_name self) (DEFAULT_SUBTITLE cfg);
                 imageUrl := get_prowler_avatar cfg;
                 imageType := "SQUARE" |};
            sections :=
              [ __build_identity_section identity logo stats;
                __build_statistics_section stats;
                __build_parameters_section args ] |} |} in
  {| cardsV2 := [ card ] |}.

(** [200 <= response.status_code < 300]. *)
Definition accepted (response : Response) : bool :=
  (200 <=? status_code response) && (status_code response <? 300).

Definition rejection_message (response : Response) : string :=
  "Google Chat webhook returned " ++ Py.str_of_int (status_code response)
  ++ ": " ++ text response.

Definition send (self : GoogleChat) (stats : gmap string Z) (args : string)
    : M Py.value :=
  try_except
    (let '(identity, logo) := get_provider_identity_and_logo cfg (_provider self) in
     let payload := __build_message self identity logo stats args in
     response ← lift (requests_post cfg (webhook_url self) payload REQUEST_TIMEOUT_SECONDS);
     if accepted response then lift (__safe_response_content response)
     else
       let message := rejection_message response in
       exception ← GoogleChatSendMessageError (Some this_file) None (Some message);
       raise exception)
    (fun error =>
       if isinstance error Cls.GoogleChatSendMessageError then raise error
       else if isinstance error Cls.RequestException then
         exception ← GoogleChatClientError (Some this_file) (Some error)
                       (Some "Failed to call Google Chat webhook");
         raise exception
       else
         exception ← GoogleChatClientError (Some this_file) (Some error)
                       (Some "Unexpected error building Google Chat message");
         raise exception).

Definition test_payload : Payload :=
  {| cardsV2 :=
      [ {| cardId := "prowler-test";
           card :=
             {| header :=
                  {| title := "Prowler Google Chat Integration";
                     subtitle := "Connection test";
                     imageUrl := get_prowler_avatar cfg;
                     imageType := "SQUARE" |};
                sections :=
                  [ {| widgets :=
                        [ textParagraph
                            "This is a test message from Prowler to verify webhook connectivity." ] |} ]
             |} |} ] |}.

(** [if raise_on_exception: raise exception] followed by
    [return Connection(error=exception)]. *)
Definition raise_or_return (raise_on_exception : bool) (exception : exn)
    : M Connection :=
  if raise_on_exception then raise exception
  else mret {| is_connected := false; error := Some exception |}.

Definition test_connection (webhook_url : Py.value) (raise_on_exception : bool)
    : M Connection :=
  try_except
    (validated_url ← __validate_webhook_url webhook_url;
     let payload := test_payload in
     response ← lift (requests_post cfg validated_url payload REQUEST_TIMEOUT_SECONDS);
     if accepted response then mret {| is_connected := true; error := None |}
     else
       exception ← GoogleChatSendMessageError (Some this_file) None
                     (Some (rejection_message response));
       raise_or_return raise_on_exception exception)
    (fun error =>
       if isinstance error Cls.GoogleChatInvalidWebhookError then
         raise_or_return raise_on_exception error
       else if isinstance error Cls.GoogleChatBaseException then
         raise_or_return raise_on_exception error
       else if isinstance error Cls.RequestException then
         exception ← GoogleChatClientError (Some this_file) (Some error)
                       (Some "Failed to reach Google Chat webhook");
         raise_or_return raise_on_exception exception
       else
         exception ← GoogleChatClientError (Some this_file) (Some error)
                       (Some "Unexpected error testing Google Chat webhook");
         raise_or_return raise_on_exception exception).

End Methods.
End GoogleChat.

(** ** utils.py: lists, dictionaries and tags *)

(** The items are strings, which an f-string prints as they are. *)
Definition unroll_list (listed_items : list string) (separator : string) : string :=
  let unrolled_items := "" in
  match listed_items with
  | [] => unrolled_items
  | _ =>
      fold_left
        (fun unrolled_items item =>
           if negb (Py.truthy unrolled_items) then item
           else if String.eqb separator "|"
                then unrolled_items ++ " " ++ separator ++ " " ++ item
                else unrolled_items ++ separator ++ " " ++ item)
        listed_items unrolled_items
  end.

(** The values of the dictionaries [unroll_dict] and [unroll_dict_to_list]
    are given in their docstrings: a string, an integer, or a list of
    strings. *)
Inductive dict_value : Type :=
| DStr (s : string)
| DInt (n : Z)
| DList (l : list string).

(** [value] as the loops print it: a list is first joined with [", "]. *)
Definition printed_value (value : dict_value) : string :=
  match value with
  | DList l => Py.join ", " l
  | DStr s => s
  | DInt n => Py.str_of_int n
  end.

(** The dictionary is read through [dict.items()] only: it is the list of its
    items in insertion order. *)
Definition unroll_dict (dict : list (string * dict_value)) (separator : string)
    : string :=
  fold_left
    (fun unrolled_items '(key, value) =>
       let value := printed_value value in
       if negb (Py.truthy unrolled_items) then key ++ separator ++ value
       else unrolled_items ++ " | " ++ key ++ separator ++ value)
    dict "".

Definition unroll_dict_to_list (dict : list (string * dict_value)) : list string :=
  fold_left
    (fun (dict_list : list string) '(key, value) =>
       match value with
       | DList l => app dict_list [key ++ ":" ++ Py.join ", " l]
       | _ => app dict_list [key ++ ":" ++ printed_value value]
       end)
    dict [].

(** [s.split(" | ")]: the pieces between the occurrences of the separator,
    found from left to right; [piece] is the piece being read. *)
Fixpoint split_bar (piece : string) (s : string) : list string :=
  match s with
  | "" => [piece]
  | String a s1 =>
      match s1 with
      | String b (String c rest) =>
          if Ascii.eqb a " " && Ascii.eqb b "|" && Ascii.eqb c " "
          then piece :: split_bar "" rest
          else split_bar (piece ++ String a "") s1
      | _ => split_bar (piece ++ String a "") s1
      end
  end.

Definition parse_html_string (str : string) : string :=
  fold_left
    (fun string elem =>
       if Py.truthy elem
       then string ++ Py.nl ++ "&#x2022;" ++ elem ++ Py.nl
       else string)
    (split_bar "" str) "".

(** A tag dictionary maps strings to strings; it is only looked up, tested
    for a key and merged, so it is a finite map. *)
Abbreviation tag_dict := (gmap string string).

(** The shapes of [tags] the docstring of [unroll_tags] lists: [None], a
    dictionary, a list of names, a list of dictionaries; an item of the last
    may be [None], as in the [[None]] the guard tests for. *)
Inductive tags : Type :=
| TagsNone
| TagsDict (d : tag_dict)
| TagsNames (names : list string)
| TagsItems (items : list (option tag_dict)).

(** [tags and tags != [{}] and tags != [None]] for a list of dictionaries;
    the empty list is falsy. *)
Definition worth_unrolling (items : list (option tag_dict)) : bool :=
  match items with
  | [] => false
  | [Some d] => negb (bool_decide (d = ∅))
  | [None] => false
  | _ => true
  end.

(** [{item[k]: item.get(v, "") for item in tags}]: [item[k]] raises
    [TypeError] on [None] and [KeyError] on a dictionary without [k]. *)
Fixpoint keyed (k v : string) (items : list (option tag_dict)) (acc : tag_dict)
    : outcome tag_dict :=
  match items with
  | [] => Return acc
  | None :: _ => Raise (PyExc Cls.TypeError "'NoneType' object is not subscriptable")
  | Some item :: rest =>
      match item !! k with
      | None => Raise (PyExc Cls.KeyError k)
      | Some key => keyed k v rest (<[ key := default "" (item !! v) ]> acc)
      end
  end.

(** [{key: value for d in tags for key, value in d.items()}]: [d.items()]
    raises [AttributeError] on [None]; a later dictionary overrides. *)
Fixpoint merged (items : list (option tag_dict)) (acc : tag_dict) : outcome tag_dict :=
  match items with
  | [] => Return acc
  | None :: _ => Raise (PyExc Cls.AttributeError "'NoneType' object has no attribute 'items'")
  | Some d :: rest => merged rest (d ∪ acc)
  end.

Definition unroll_tags (tags : tags) : outcome tag_dict :=
  match tags with
  | TagsNone => Return ∅
  | TagsDict d => Return d
  | TagsNames names =>
      Return (fold_left (fun acc tag => <[ tag := "" ]> acc) names ∅)
  | TagsItems items =>
      if worth_unrolling items then
        match items with
        | Some first :: _ =>
            if bool_decide (is_Some (first !! "key")) then keyed "key" "value" items ∅
            else if bool_decide (is_Some (first !! "Key")) then keyed "Key" "Value" items ∅
            else merged items ∅
        | _ => Raise (PyExc Cls.TypeError "argument of type 'NoneType' is not iterable")
        end
      else Return ∅
  end.

(** The loop of [parse_json_tags]: ["Key" in tag] raises [TypeError] on
    [None]. *)
Fixpoint parse_each (items : list (option tag_dict)) (dict_tags : tag_dict)
    : outcome tag_dict :=
  match items with
  | [] => Return dict_tags
  | None :: _ => Raise (PyExc Cls.TypeError "argument of type 'NoneType' is not iterable")
  | Some tag :: rest =>
      match tag !! "Key", tag !! "Value" with
      | Some key, Some value => parse_each rest (<[ key := value ]> dict_tags)
      | _, _ => parse_each rest (tag ∪ dict_tags)
      end
  end.

Definition parse_json_tags (tags : list (option tag_dict)) : outcome tag_dict :=
  let dict_tags := ∅ in
  if worth_unrolling tags then parse_each tags dict_tags else Return dict_tags.

(** *** What the helpers compute, in terms of [join] *)

(** The list without its leading empty strings. *)
Fixpoint drop_empty (l : list string) : list string :=
  match l with
  | "" :: rest => drop_empty rest
  | _ => l
  end.

(** What [unroll_list] puts between two items. *)
Definition glue (separator : string) : string :=
  if String.eqb separator "|" then " | " else separator ++ " ".

(** One item of a dictionary as [unroll_dict] prints it. *)
Definition printed_item (separator : string) (item : string * dict_value) : string :=
  fst item ++ separator ++ printed_value (snd item).

(** One bullet of [parse_html_string]. *)
Definition bullet (elem : string) : string :=
  Py.nl ++ "&#x2022;" ++ elem ++ Py.nl.

(** The string has no [|] in it. *)
Fixpoint bar_free (s : string) : bool :=
  match s with
  | "" => true
  | String a s' => negb (Ascii.eqb a "|") && bar_free s'
  end.

(** A tag written with the keys ["Key"] and ["Value"]. *)
Definition key_value_tag (tag : tag_dict) : Prop :=
  is_Some (tag !! "Key") /\ is_Some (tag !! "Value").

(** The ["Value"] of the last tag of the list whose ["Key"] is [k]. *)
Fixpoint last_value (k : string) (tags : list tag_dict) : option string :=
  match tags with
  | [] => None
  | tag :: rest =>
      match last_value k rest with
      | Some v => Some v
      | None => if decide (tag !! "Key" = Some k) then tag !! "Value" else None
      end
  end.

(** The value of [k] in the last dictionary of the list that has [k]. *)
Fixpoint last_lookup (k : string) (dicts : list tag_dict) : option string :=
  match dicts with
  | [] => None
  | d :: rest =>
      match last_lookup k rest with
      | Some v => Some v
      | None => d !! k
      end
  end.

(** ** Specifications and sample inputs *)

Import GoogleChat.

(** The percentage the spec asks for: [round(count / findings_count * 100, 2)],
    and [0.0] when [findings_count] is absent or zero or when evaluating the
    expression raises. *)
Definition percentage_spec (count : Z) (stats : gmap string Z)
    (p : PyFloat.float) : Prop :=
  match stats !! "findings_count" with
  | None | Some 0 => p = PyFloat.zero
  | Some findings_count =>
      match PyFloat.int_truediv count findings_count with
      | inr q => p = PyFloat.round2 (PyFloat.mul_int q 100)
      | inl _ => p = PyFloat.zero
      end
  end.

(** A webhook URL is valid, in the spec's words, when it is a non-empty
    string that starts with the fixed prefix. *)
Definition valid_url (v : Py.value) : Prop :=
  exists s : string,
    v = Py.VStr s /\ s <> "" /\ Py.startswith s "https://chat.googleapis.com/" = true.

(** The first candidate that is supplied and not empty, else the fallback. *)
Fixpoint first_non_empty (candidates : list (option string)) (fallback : string)
    : string :=
  match candidates with
  | [] => fallback
  | Some s :: rest =>
      if decide (s = "") then first_non_empty rest fallback else s
  | None :: rest => first_non_empty rest fallback
  end.

(** The summary line up to the identity. *)
Definition greeting : string :=
  "Hey there 👋 " ++ Py.nl ++ " I'm *Prowler*, _the handy multi-cloud security tool_ "
  ++ ":cloud::key:" ++ Py.nl ++ Py.nl
  ++ " I have just finished the security assessment on your ".

(** The status is outside [[200, 300)]. *)
Definition rejected (response : Response) : Prop :=
  status_code response < 200 \/ 300 <= status_code response.

(** The [error_info] a new exception is built from, the exception, and the
    table after its construction. *)
Definition built_info (cls : Cls.exc_class) (code : Z) (message : option string)
    (codes : error_codes) : ErrorInfo :=
  let found :=
    default {| message := "Unknown Google Chat error"; remediation := "" |}
            (codes !! (code, Cls.name cls)) in
  match GoogleChatBaseException.given message with
  | Some m => GoogleChatBaseException.set_message m found
  | None => found
  end.

Definition updated_codes (cls : Cls.exc_class) (code : Z) (message : option string)
    (codes : error_codes) : error_codes :=
  match GoogleChatBaseException.given message with
  | Some m => alter (GoogleChatBaseException.set_message m) (code, Cls.name cls) codes
  | None => codes
  end.

Definition built (cls : Cls.exc_class) (code : Z) (file : option string)
    (original_exception : option exn) (message : option string)
    (codes : error_codes) : exn :=
  ProwlerExc cls code "Google Chat" (Py.or_else file "exceptions.py")
    original_exception (built_info cls code message codes).

(** The payload [send] posts and the result of its POST. *)
Definition send_payload (cfg : Config) (self : GoogleChat)
    (stats : gmap string Z) (args : string) : Payload :=
  __build_message cfg self
    (fst (get_provider_identity_and_logo cfg (_provider self)))
    (snd (get_provider_identity_and_logo cfg (_provider self)))
    stats args.

Definition send_post (cfg : Config) (self : GoogleChat)
    (stats : gmap string Z) (args : string) : outcome Response :=
  requests_post cfg (webhook_url self) (send_payload cfg self stats args)
    REQUEST_TIMEOUT_SECONDS.

(** The result of the POST [test_connection] makes to a validated URL. *)
Definition test_post (cfg : Config) (url : string) : outcome Response :=
  requests_post cfg url (test_payload cfg) REQUEST_TIMEOUT_SECONDS.

Definition connected : Connection := {| is_connected := true; error := None |}.

Definition not_connected (e : exn) : Connection :=
  {| is_connected := false; error := Some e |}.

(** How [test_connection] reports the failure [e]: raised, or returned in a
    result that is not connected. *)
Definition reported (raise_on_exception : bool) (e : exn) (codes : error_codes)
    : outcome Connection * error_codes :=
  if raise_on_exception then (Raise e, codes) else (Return (not_connected e), codes).

(** What the spec asks of the error for a rejected response. *)
Definition send_message_error (e : exn) (response : Response) : Prop :=
  exc_class e = Cls.GoogleChatSendMessageError
  /\ exc_message e = rejection_message response
  /\ Py.contains (Py.str_of_int (status_code response)) (exc_message e)
  /\ Py.contains (text response) (exc_message e).

(** The three kinds of the error taxonomy, with the class, the code and the
    constructor of each. *)
Inductive kind : Type := ClientError | InvalidWebhookError | SendMessageError.

Definition kind_class (k : kind) : Cls.exc_class :=
  match k with
  | ClientError => Cls.GoogleChatClientError
  | InvalidWebhookError => Cls.GoogleChatInvalidWebhookError
  | SendMessageError => Cls.GoogleChatSendMessageError
  end.

Definition kind_code (k : kind) : Z :=
  match k with
  | ClientError => 9000
  | InvalidWebhookError => 9001
  | SendMessageError => 9002
  end.

Definition construct (k : kind)
    : option string -> option exn -> option string -> M exn :=
  match k with
  | ClientError => GoogleChatClientError
  | InvalidWebhookError => GoogleChatInvalidWebhookError
  | SendMessageError => GoogleChatSendMessageError
  end.

Definition kind_key (k : kind) : Z * string := (kind_code k, Cls.name (kind_class k)).

(** The entry of the table as the source writes it. *)
Definition static_info (k : kind) : ErrorInfo :=
  default {| message := ""; remediation := "" |}
    (GoogleChatBaseException.GOOGLE_CHAT_ERROR_CODES !! kind_key k).

(** The states of the shared table a run can be in: the one the class is
    defined with, and the one any construction leaves. *)
Inductive reachable : error_codes -> Prop :=
| reachable_initial : reachable GoogleChatBaseException.GOOGLE_CHAT_ERROR_CODES
| reachable_construct cls code file original_exception message codes e codes' :
    reachable codes ->
    GoogleChatBaseException.__init__ cls code file original_exception message codes
      = (Return e, codes') ->
    reachable codes'.

(** The constructions that leave the entry of kind [k] alone: those for
    another key of the table and those given no message. *)
Inductive undisturbed (k : kind) : error_codes -> error_codes -> Prop :=
| undisturbed_refl codes : undisturbed k codes codes
| undisturbed_step cls code file original_exception message codes codes' e codes'' :
    undisturbed k codes codes' ->
    GoogleChatBaseException.__init__ cls code file original_exception message codes'
      = (Return e, codes'') ->
    (code, Cls.name cls) <> kind_key k
    \/ GoogleChatBaseException.given message = None ->
    undisturbed k codes codes''.

(** *** Sample inputs, from the repository's tests *)

Definition build_stats : gmap string Z :=
  list_to_map
    [ ("total_pass", 12); ("total_fail", 10);
      ("total_critical_severity_pass", 4); ("total_critical_severity_fail", 4);
      ("total_high_severity_pass", 1); ("total_high_severity_fail", 1);
      ("total_medium_severity_pass", 1); ("total_medium_severity_fail", 2);
      ("total_low_severity_pass", 3); ("total_low_severity_fail", 2);
      ("resources_count", 20); ("findings_count", 22) ].

Definition WEBHOOK_URL : string :=
  "https://chat.googleapis.com/v1/spaces/AAAA/messages?key=fake&token=fake".

Definition ARGS : string := "--google-chat".

Definition sample_provider : Provider :=
  {| type := Some "aws";
     identity_account := Some "123456789012";
     project_ids := None;
     identity_subscriptions := None |}.

(** A configuration whose POST always has the result [post]. *)
Definition sample_config (post : outcome Response) : Config :=
  {| aws_logo := "aws_logo.png";
     azure_logo := "azure_logo.png";
     gcp_logo := "gcp_logo.png";
     square_logo_img := "square_logo.png";
     import_environ := ∅;
     requests_post := fun _ _ _ => post |}.

(** The same with the environment [environ] at import. *)
Definition sample_config_in (environ : gmap string string) : Config :=
  {| aws_logo := "aws_logo.png";
     azure_logo := "azure_logo.png";
     gcp_logo := "gcp_logo.png";
     square_logo_img := "square_logo.png";
     import_environ := environ;
     requests_post := fun _ _ _ => Return
       {| status_code := 200; text := ""; json := Return Py.VNone |} |}.

Definition sample_chat : GoogleChat :=
  {| _webhook_url := WEBHOOK_URL;
     _provider := sample_provider;
     _space_name := None;
     _card_header := DEFAULT_CARD_HEADER |}.

Definition response_ok : Response :=
  {| status_code := 200;
     text := "[true]";
     json := Return (Py.VList [Py.VBool true]) |}.

Definition response_text : Response :=
  {| status_code := 200;
     text := "ok";
     json := Raise (PyExc Cls.JSONDecodeError "Expecting value") |}.

Definition response_empty : Response :=
  {| status_code := 204;
     text := "";
     json := Raise (PyExc Cls.JSONDecodeError "Expecting value") |}.

Definition response_oops : Response :=
  {| status_code := 500;
     text := "oops";
     json := Raise (PyExc Cls.JSONDecodeError "Expecting value") |}.

Definition timeout_error : exn := PyExc Cls.Timeout "timed out".

(** Running the monad: unfold the combinators and the three constructors
    down to [__init__], then rewrite with its equation. *)
Ltac unfold_monad :=
  unfold try_except, raise_or_return, raise, lift, mbind, M_bind, mret, M_ret,
    GoogleChatSendMessageError, GoogleChatClientError,
    GoogleChatInvalidWebhookError.

(** ** Strings *)

Lemma append_nil_r (s : string) : s ++ "" = s.
Proof.
  induction s as [| a s IH]; [reflexivity |].
  change (String a s ++ "") with (String a (s ++ "")). now rewrite IH.
Qed.

Lemma append_assoc (s t u : string) : (s ++ t) ++ u = s ++ t ++ u.
Proof.
  induction s as [| a s IH]; [reflexivity |].
  change ((String a s ++ t) ++ u) with (String a ((s ++ t) ++ u)).
  now rewrite IH.
Qed.

Lemma contains_middle (pre sub post : string) : Py.contains sub (pre ++ sub ++ post).
Proof. now exists pre, post. Qed.

Lemma contains_end (pre sub : string) : Py.contains sub (pre ++ sub).
Proof. exists pre, "". now rewrite append_nil_r. Qed.

Lemma contains_empty (sub : string) : sub <> "" -> ~ Py.contains sub "".
Proof.
  intros Hsub (pre & post & H). destruct pre; [| discriminate H].
  destruct sub; [contradiction | discriminate H].
Qed.

Lemma startswith_app (p suffix : string) : Py.startswith (p ++ suffix) p = true.
Proof.
  unfold Py.startswith. induction p as [| a p IH].
  - now destruct suffix.
  - change (String a p ++ suffix) with (String a (p ++ suffix)).
    cbn [String.prefix].
    destruct (ascii_dec a a) as [_ | Hne]; [exact IH | contradiction].
Qed.

Lemma or_else_first_non_empty (o : option string) (d : string) :
  Py.or_else o d = first_non_empty [o] d.
Proof.
  destruct o as [s |]; [| reflexivity]. cbn. unfold Py.truthy.
  destruct (String.eqb_spec s ""); now destruct (decide (s = "")).
Qed.

(** ** The percentage calculator *)

Lemma stats_get_absent (stats : gmap string Z) (key : string) :
  stats !! key = None -> stats_get stats key = 0.
Proof. intros H. unfold stats_get. now rewrite H. Qed.

Lemma stats_get_present (stats : gmap string Z) (key : string) (n : Z) :
  stats !! key = Some n -> stats_get stats key = n.
Proof. intros H. unfold stats_get. now rewrite H. Qed.

Lemma calculate_percentage_total (count total : Z) :
  total <> 0 ->
  __calculate_percentage count total =
    match percentage_expression count total with
    | inr p => p
    | inl _ => PyFloat.zero
    end.
Proof.
  intros Hne. unfold __calculate_percentage. cbn [Py.truth].
  destruct (Z.eqb_spec total 0) as [-> | _]; [contradiction | reflexivity].
Qed.

Lemma calculate_percentage_meets_spec (key : string) (stats : gmap string Z) :
  percentage_spec (stats_get stats key) stats
    (__calculate_percentage (stats_get stats key) (stats_get stats "findings_count")).
Proof.
  unfold percentage_spec.
  destruct (stats !! "findings_count") as [total |] eqn:Hfc.
  - rewrite (stats_get_present _ _ _ Hfc).
    destruct (Z.eq_dec total 0) as [-> | Hne]; [reflexivity |].
    rewrite (calculate_percentage_total _ _ Hne). unfold percentage_expression.
    destruct total; [contradiction | |];
      now destruct (PyFloat.int_truediv _ _).
  - now rewrite (stats_get_absent _ _ Hfc).
Qed.

(** C1. For every stats mapping the passed and failed widgets of the
    statistics section print the percentage
    [round(count / findings_count * 100, 2)] of [total_pass] and of
    [total_fail]; the percentage is [0.0] when [findings_count] is zero or
    absent, and also when the expression raises, so nothing is raised.  For
    12 passed and 10 failed out of 22 findings the widgets print 54.55 and
    45.45. *)
Theorem C1_statistics_percentages :
  (forall stats : gmap string Z,
     exists (pass_percentage fail_percentage : PyFloat.float)
            (pass_severity fail_severity : option string) (resources : Widget),
       widgets (__build_statistics_section stats) =
         [ decoratedText
             ("✅ *" ++ Py.str_of_int (stats_get stats "total_pass")
              ++ " Passed findings* (" ++ PyFloat.repr pass_percentage ++ "%)")
             pass_severity None;
           decoratedText
             ("❌ *" ++ Py.str_of_int (stats_get stats "total_fail")
              ++ " Failed findings* (" ++ PyFloat.repr fail_percentage ++ "%)")
             fail_severity None;
           resources ]
       /\ percentage_spec (stats_get stats "total_pass") stats pass_percentage
       /\ percentage_spec (stats_get stats "total_fail") stats fail_percentage)
  /\ (forall count : Z, PyFloat.repr (__calculate_percentage count 0) = "0.0")
  /\ (exists bottom_pass bottom_fail resources,
        widgets (__build_statistics_section build_stats) =
          [ decoratedText "✅ *12 Passed findings* (54.55%)" bottom_pass None;
            decoratedText "❌ *10 Failed findings* (45.45%)" bottom_fail None;
            resources ]).
Proof.
  split; [| split].
  - intros stats. do 5 eexists. split; [reflexivity |].
    split; apply calculate_percentage_meets_spec.
  - intros count. reflexivity.
  - do 3 eexists. vm_compute. reflexivity.
Qed.

(** ** Constructing an exception *)

Lemma init_unfold cls code file original_exception message codes :
  GoogleChatBaseException.__init__ cls code file original_exception message codes
  = (Return (built cls code file original_exception message codes),
     updated_codes cls code message codes).
Proof.
  unfold GoogleChatBaseException.__init__, built, built_info, updated_codes.
  now destruct (GoogleChatBaseException.given message).
Qed.

Ltac run := unfold_monad; repeat rewrite init_unfold; cbn beta iota.

Lemma given_non_empty (m : string) :
  m <> "" -> GoogleChatBaseException.given (Some m) = Some m.
Proof.
  intros Hm. unfold GoogleChatBaseException.given, Py.truthy.
  destruct (String.eqb_spec m "") as [-> | _]; [contradiction | reflexivity].
Qed.

Lemma built_message cls code file o (m : string) codes :
  m <> "" -> exc_message (built cls code file o (Some m) codes) = m.
Proof.
  intros Hm. unfold built, built_info. now rewrite (given_non_empty _ Hm).
Qed.

(** ** URL validation *)

Lemma valid_url_dec (v : Py.value) : valid_url v \/ ~ valid_url v.
Proof.
  destruct v as [| b | n | x | s | l | d];
    try (right; intros (s' & H & _); discriminate H).
  destruct (String.eqb_spec s "") as [-> | Hs].
  - right. intros (s' & H & Hne & _). now injection H as <-.
  - destruct (Py.startswith s "https://chat.googleapis.com/") eqn:Hp.
    + left. now exists s.
    + right. intros (s' & H & _ & Hp'). injection H as <-. congruence.
Qed.

Lemma validate_accepts (s : string) (codes : error_codes) :
  s <> "" -> Py.startswith s "https://chat.googleapis.com/" = true ->
  __validate_webhook_url (Py.VStr s) codes = (Return s, codes).
Proof.
  intros Hs Hp. unfold __validate_webhook_url. cbn [Py.truth Py.is_str].
  unfold Py.truthy. destruct (String.eqb_spec s "") as [-> | _]; [contradiction |].
  cbn [negb orb]. now rewrite Hp.
Qed.

Lemma validate_rejects (v : Py.value) (codes : error_codes) :
  ~ valid_url v ->
  exists message,
    message <> "" /\
    __validate_webhook_url v codes =
      (Raise (built Cls.GoogleChatInvalidWebhookError 9001 (Some this_file) None
                (Some message) codes),
       updated_codes Cls.GoogleChatInvalidWebhookError 9001 (Some message) codes).
Proof.
  intros Hv. unfold __validate_webhook_url.
  destruct v as [| b | n | x | s | l | d]; cbn [Py.is_str negb];
    rewrite ?orb_true_r, ?orb_false_r;
    try (eexists; split; [| run; reflexivity]; discriminate).
  cbn [Py.truth]. unfold Py.truthy.
  destruct (String.eqb_spec s "") as [-> | Hs]; cbn [negb].
  - eexists. split; [| run; reflexivity]. discriminate.
  - destruct (Py.startswith s "https://chat.googleapis.com/") eqn:Hp; cbn [negb].
    + exfalso. apply Hv. now exists s.
    + eexists. split; [| run; reflexivity]. discriminate.
Qed.

(** C2. URL validation returns the candidate unchanged exactly when it is a
    non-empty string starting with [https://chat.googleapis.com/], whatever
    follows the prefix; every other value (not a string, empty, another
    prefix) raises [GoogleChatInvalidWebhookError]. *)
Theorem C2_validate_webhook_url (v : Py.value) (codes : error_codes) :
  (valid_url v ->
     exists s, v = Py.VStr s /\ __validate_webhook_url v codes = (Return s, codes))
  /\ (~ valid_url v ->
        exists e codes',
          __validate_webhook_url v codes = (Raise e, codes')
          /\ exc_class e = Cls.GoogleChatInvalidWebhookError
          /\ exc_code e = Some 9001)
  /\ (forall suffix : string,
        valid_url (Py.VStr ("https://chat.googleapis.com/" ++ suffix))).
Proof.
  split; [| split].
  - intros (s & -> & Hs & Hp). exists s. split; [reflexivity |].
    now apply validate_accepts.
  - intros Hv. destruct (validate_rejects v codes Hv) as (m & _ & Hrun).
    do 2 eexists. split; [exact Hrun |]. split; reflexivity.
  - intros suffix. eexists. split; [reflexivity |]. split; [discriminate |].
    apply startswith_app.
Qed.

(** The test suite's URL is accepted; [https://invalid], [None] and the
    empty string are refused. *)
Lemma C2_validate_webhook_url_witness :
  (exists s, Py.VStr WEBHOOK_URL = Py.VStr s
     /\ __validate_webhook_url (Py.VStr WEBHOOK_URL)
          GoogleChatBaseException.GOOGLE_CHAT_ERROR_CODES
        = (Return s, GoogleChatBaseException.GOOGLE_CHAT_ERROR_CODES))
  /\ (exists e codes',
        __validate_webhook_url (Py.VStr "https://invalid")
          GoogleChatBaseException.GOOGLE_CHAT_ERROR_CODES = (Raise e, codes')
        /\ exc_class e = Cls.GoogleChatInvalidWebhookError
        /\ exc_code e = Some 9001)
  /\ (exists e codes',
        __validate_webhook_url Py.VNone
          GoogleChatBaseException.GOOGLE_CHAT_ERROR_CODES = (Raise e, codes')
        /\ exc_class e = Cls.GoogleChatInvalidWebhookError
        /\ exc_code e = Some 9001).
Proof.
  split; [| split].
  - apply (proj1 (C2_validate_webhook_url _ _)).
    exists WEBHOOK_URL. split; [reflexivity |]. split; [discriminate | reflexivity].
  - apply (proj1 (proj2 (C2_validate_webhook_url _ _))).
    intros (s & H & _ & Hp). injection H as <-. discriminate Hp.
  - apply (proj1 (proj2 (C2_validate_webhook_url _ _))).
    intros (s & H & _). discriminate H.
Defined.

(** ** The parameters section *)

(** C9. The parameters section is one text paragraph: under the heading
    [*Used parameters*], the line is the literal [prowler] alone when [args]
    is empty, and [prowler], one space and [args] otherwise. *)
Theorem C9_parameters_section (args : string) :
  exists line : string,
    widgets (__build_parameters_section args) =
      [ textParagraph ("*Used parameters*" ++ Py.nl ++ "`" ++ line ++ "`") ]
    /\ (args = "" -> line = "prowler")
    /\ (args <> "" -> line = "prowler " ++ args).
Proof.
  unfold __build_parameters_section, Py.truthy.
  destruct (String.eqb_spec args "") as [-> | Hne].
  - exists "prowler". split; [reflexivity |]. split; [reflexivity | contradiction].
  - exists ("prowler " ++ args). split; [reflexivity |].
    split; [contradiction | reflexivity].
Qed.

(** ** [send] *)

Lemma rejection_message_contains (response : Response) :
  Py.contains (Py.str_of_int (status_code response)) (rejection_message response)
  /\ Py.contains (text response) (rejection_message response).
Proof.
  unfold rejection_message. split.
  - apply contains_middle.
  - rewrite <- !append_assoc. apply contains_end.
Qed.

Lemma rejection_message_non_empty (response : Response) :
  rejection_message response <> "".
Proof. discriminate. Qed.

Lemma accepted_iff (response : Response) :
  accepted response = true <-> 200 <= status_code response < 300.
Proof. unfold accepted. rewrite andb_true_iff, Z.leb_le, Z.ltb_lt. tauto. Qed.

Lemma rejected_iff (response : Response) :
  accepted response = false <-> rejected response.
Proof.
  unfold accepted, rejected. rewrite andb_false_iff, Z.leb_gt, Z.ltb_ge. tauto.
Qed.

Lemma built_send_message_error file o (response : Response) codes :
  send_message_error
    (built Cls.GoogleChatSendMessageError 9002 file o
       (Some (rejection_message response)) codes)
    response.
Proof.
  unfold send_message_error.
  rewrite (built_message Cls.GoogleChatSendMessageError 9002 file o _ codes
             (rejection_message_non_empty response)).
  split; [reflexivity |]. split; [reflexivity |].
  apply rejection_message_contains.
Qed.

Lemma not_send_message_error (error : exn) :
  isinstance error Cls.RequestException = true ->
  isinstance error Cls.GoogleChatSendMessageError = false.
Proof. unfold isinstance. now destruct (exc_class error). Qed.

Section Send.

Context (cfg : Config) (self : GoogleChat) (stats : gmap string Z)
  (args : string) (codes : error_codes).

Lemma send_unfold :
  send cfg self stats args codes =
    try_except
      (response ← lift (send_post cfg self stats args);
       if accepted response then lift (__safe_response_content response)
       else
         exception ← GoogleChatSendMessageError (Some this_file) None
                       (Some (rejection_message response));
         raise exception)
      (fun error =>
         if isinstance error Cls.GoogleChatSendMessageError then raise error
         else if isinstance error Cls.RequestException then
           exception ← GoogleChatClientError (Some this_file) (Some error)
                         (Some "Failed to call Google Chat webhook");
           raise exception
         else
           exception ← GoogleChatClientError (Some this_file) (Some error)
                         (Some "Unexpected error building Google Chat message");
           raise exception)
      codes.
Proof.
  unfold send, send_post, send_payload.
  now destruct (get_provider_identity_and_logo cfg (_provider self)).
Qed.

Lemma send_accepted (response : Response) (body : Py.value) :
  send_post cfg self stats args = Return response ->
  accepted response = true ->
  __safe_response_content response = Return body ->
  send cfg self stats args codes = (Return body, codes).
Proof.
  intros Hpost Hacc Hbody. rewrite send_unfold. run.
  now rewrite Hpost, Hacc, Hbody.
Qed.

Lemma send_rejected (response : Response) :
  send_post cfg self stats args = Return response ->
  accepted response = false ->
  send cfg self stats args codes =
    (Raise (built Cls.GoogleChatSendMessageError 9002 (Some this_file) None
              (Some (rejection_message response)) codes),
     updated_codes Cls.GoogleChatSendMessageError 9002
       (Some (rejection_message response)) codes).
Proof.
  intros Hpost Hacc. rewrite send_unfold. run.
  now rewrite Hpost, Hacc.
Qed.

Lemma send_transport_error (error : exn) :
  send_post cfg self stats args = Raise error ->
  isinstance error Cls.RequestException = true ->
  send cfg self stats args codes =
    (Raise (built Cls.GoogleChatClientError 9000 (Some this_file) (Some error)
              (Some "Failed to call Google Chat webhook") codes),
     updated_codes Cls.GoogleChatClientError 9000
       (Some "Failed to call Google Chat webhook") codes).
Proof.
  intros Hpost Hreq. rewrite send_unfold. run. rewrite Hpost.
  now rewrite (not_send_message_error _ Hreq), Hreq.
Qed.

Lemma send_reraises (error : exn) :
  send_post cfg self stats args = Raise error ->
  isinstance error Cls.GoogleChatSendMessageError = true ->
  send cfg self stats args codes = (Raise error, codes).
Proof.
  intros Hpost Hsend. rewrite send_unfold. run. now rewrite Hpost, Hsend.
Qed.

End Send.

(** ** [test_connection] *)

Section TestConnection.

Context (cfg : Config) (codes : error_codes).

Lemma test_connection_invalid (url : Py.value) :
  ~ valid_url url ->
  exists e codes',
    exc_class e = Cls.GoogleChatInvalidWebhookError
    /\ forall raise_on_exception,
         test_connection cfg url raise_on_exception codes
         = reported raise_on_exception e codes'.
Proof.
  intros Hv. destruct (validate_rejects url codes Hv) as (m & _ & Hrun).
  do 2 eexists. split; [| intros b; unfold test_connection; unfold_monad;
                          rewrite Hrun; now destruct b].
  reflexivity.
Qed.

Lemma test_connection_valid (s : string) (raise_on_exception : bool) :
  valid_url (Py.VStr s) ->
  test_connection cfg (Py.VStr s) raise_on_exception codes =
    try_except
      (response ← lift (test_post cfg s);
       if accepted response then mret connected
       else
         exception ← GoogleChatSendMessageError (Some this_file) None
                       (Some (rejection_message response));
         raise_or_return raise_on_exception exception)
      (fun error =>
         if isinstance error Cls.GoogleChatInvalidWebhookError then
           raise_or_return raise_on_exception error
         else if isinstance error Cls.GoogleChatBaseException then
           raise_or_return raise_on_exception error
         else if isinstance error Cls.RequestException then
           exception ← GoogleChatClientError (Some this_file) (Some error)
                         (Some "Failed to reach Google Chat webhook");
           raise_or_return raise_on_exception exception
         else
           exception ← GoogleChatClientError (Some this_file) (Some error)
                         (Some "Unexpected error testing Google Chat webhook");
           raise_or_return raise_on_exception exception)
      codes.
Proof.
  intros (s' & [= <-] & Hs & Hp). unfold test_connection, test_post, connected.
  unfold_monad. now rewrite (validate_accepts _ _ Hs Hp).
Qed.

Lemma test_connection_accepted (s : string) (response : Response) :
  valid_url (Py.VStr s) ->
  test_post cfg s = Return response ->
  accepted response = true ->
  forall raise_on_exception,
    test_connection cfg (Py.VStr s) raise_on_exception codes
    = (Return connected, codes).
Proof.
  intros Hv Hpost Hacc b. rewrite (test_connection_valid _ _ Hv). run.
  now rewrite Hpost, Hacc.
Qed.

Lemma test_connection_rejected (s : string) (response : Response) :
  valid_url (Py.VStr s) ->
  test_post cfg s = Return response ->
  accepted response = false ->
  forall raise_on_exception,
    test_connection cfg (Py.VStr s) raise_on_exception codes
    = reported raise_on_exception
        (built Cls.GoogleChatSendMessageError 9002 (Some this_file) None
           (Some (rejection_message response)) codes)
        (updated_codes Cls.GoogleChatSendMessageError 9002
           (Some (rejection_message response)) codes).
Proof.
  intros Hv Hpost Hacc b. rewrite (test_connection_valid _ _ Hv). run.
  rewrite Hpost, Hacc. now destruct b.
Qed.

Lemma test_connection_reraises (s : string) (error : exn) :
  valid_url (Py.VStr s) ->
  test_post cfg s = Raise error ->
  Cls.is_google_chat (exc_class error) = true ->
  forall raise_on_exception,
    test_connection cfg (Py.VStr s) raise_on_exception codes
    = reported raise_on_exception error codes.
Proof.
  intros Hv Hpost Hgc b. rewrite (test_connection_valid _ _ Hv). run.
  rewrite Hpost. unfold isinstance.
  destruct (exc_class error); try discriminate Hgc; now destruct b.
Qed.

Lemma test_connection_wraps (s : string) (error : exn) :
  valid_url (Py.VStr s) ->
  test_post cfg s = Raise error ->
  Cls.is_google_chat (exc_class error) = false ->
  forall raise_on_exception,
    test_connection cfg (Py.VStr s) raise_on_exception codes
    = let message :=
        if isinstance error Cls.RequestException
        then "Failed to reach Google Chat webhook"
        else "Unexpected error testing Google Chat webhook" in
      reported raise_on_exception
        (built Cls.GoogleChatClientError 9000 (Some this_file) (Some error)
           (Some message) codes)
        (updated_codes Cls.GoogleChatClientError 9000 (Some message) codes).
Proof.
  intros Hv Hpost Hgc b. rewrite (test_connection_valid _ _ Hv). run.
  rewrite Hpost. unfold isinstance.
  destruct (exc_class error); try discriminate Hgc; now destruct b.
Qed.

(** Either the webhook answered with a status in [[200, 300)] and both modes
    return the connected result, or there is one typed error that the one
    mode raises and the other returns. *)
Lemma test_connection_cases (url : Py.value) :
  (forall raise_on_exception,
     test_connection cfg url raise_on_exception codes = (Return connected, codes))
  \/ (exists e codes',
        Cls.is_google_chat (exc_class e) = true
        /\ forall raise_on_exception,
             test_connection cfg url raise_on_exception codes
             = reported raise_on_exception e codes').
Proof.
  destruct (valid_url_dec url) as [Hv | Hv].
  - destruct Hv as (s & -> & Hs & Hp).
    assert (valid_url (Py.VStr s)) as Hv by now exists s.
    destruct (test_post cfg s) as [response | error] eqn:Hpost.
    + destruct (accepted response) eqn:Hacc.
      * left. now apply (test_connection_accepted s response).
      * right. do 2 eexists.
        split; [| now apply (test_connection_rejected s response)]. reflexivity.
    + right. destruct (Cls.is_google_chat (exc_class error)) eqn:Hgc.
      * exists error, codes. split; [exact Hgc |].
        now apply test_connection_reraises.
      * do 2 eexists. split; [| now apply (test_connection_wraps s error)].
        reflexivity.
  - right. destruct (test_connection_invalid url Hv) as (e & codes' & Hc & Hrun).
    exists e, codes'. split; [now rewrite Hc | exact Hrun].
Qed.

End TestConnection.


(** C3. A response whose status code is below 200 or at least 300 makes
    [send] raise [GoogleChatSendMessageError], and makes [test_connection]
    raise it or, when asked not to raise, return it in a result that is not
    connected; the error's message is
    [Google Chat webhook returned <status>: <body>], so it contains the status
    code and the body text. *)
Theorem C3_rejected_status (cfg : Config) (response : Response)
    (codes : error_codes) :
  rejected response ->
  (forall self stats args,
     send_post cfg self stats args = Return response ->
     exists e codes',
       send cfg self stats args codes = (Raise e, codes')
       /\ send_message_error e response)
  /\ (forall url : string,
        valid_url (Py.VStr url) ->
        test_post cfg url = Return response ->
        exists e codes',
          (forall raise_on_exception,
             test_connection cfg (Py.VStr url) raise_on_exception codes
             = reported raise_on_exception e codes')
          /\ send_message_error e response).
Proof.
  intros Hrej%rejected_iff. split.
  - intros self stats args Hpost. do 2 eexists.
    split; [now apply (send_rejected _ _ _ _ _ response) |].
    apply built_send_message_error.
  - intros url Hv Hpost. do 2 eexists.
    split; [now apply (test_connection_rejected _ _ url response) |].
    apply built_send_message_error.
Qed.

(** Status 500 with body [oops], as in the tests: the message is
    [Google Chat webhook returned 500: oops]. *)
Lemma C3_rejected_status_witness :
  rejected response_oops
  /\ (exists e codes',
        send (sample_config (Return response_oops)) sample_chat build_stats ARGS
          GoogleChatBaseException.GOOGLE_CHAT_ERROR_CODES = (Raise e, codes')
        /\ send_message_error e response_oops)
  /\ (exists e codes',
        (forall raise_on_exception,
           test_connection (sample_config (Return response_oops))
             (Py.VStr WEBHOOK_URL) raise_on_exception
             GoogleChatBaseException.GOOGLE_CHAT_ERROR_CODES
           = reported raise_on_exception e codes')
        /\ send_message_error e response_oops).
Proof.
  assert (rejected response_oops) as Hrej by (right; vm_compute; discriminate).
  split; [exact Hrej |].
  pose proof (C3_rejected_status (sample_config (Return response_oops))
                response_oops GoogleChatBaseException.GOOGLE_CHAT_ERROR_CODES Hrej)
    as [Hsend Htest].
  split.
  - apply (Hsend sample_chat build_stats ARGS). reflexivity.
  - apply (Htest WEBHOOK_URL); [| reflexivity].
    exists WEBHOOK_URL. split; [reflexivity |]. split; [discriminate | reflexivity].
Defined.

(** C4. For a response with a status in [[200, 300)], [send] returns the
    parsed body when the body text is not empty and [response.json()]
    returns, the body text itself when it is not empty and [response.json()]
    raises a [ValueError], and [None] when the body text is empty; none of
    the three raises or touches the error table. *)
Theorem C4_send_success (cfg : Config) (self : GoogleChat)
    (stats : gmap string Z) (args : string) (codes : error_codes)
    (response : Response) :
  send_post cfg self stats args = Return response ->
  200 <= status_code response < 300 ->
  (forall body,
     text response <> "" -> json response = Return body ->
     send cfg self stats args codes = (Return body, codes))
  /\ (forall e,
        text response <> "" -> json response = Raise e ->
        isinstance e Cls.ValueError = true ->
        send cfg self stats args codes = (Return (Py.VStr (text response)), codes))
  /\ (text response = "" ->
      send cfg self stats args codes = (Return Py.VNone, codes)).
Proof.
  intros Hpost Hacc%accepted_iff.
  assert (forall t, t <> "" -> Py.truthy t = true) as Htruthy.
  { intros t Ht. unfold Py.truthy. now destruct (String.eqb_spec t ""). }
  split; [| split].
  - intros body Ht Hjson. apply (send_accepted _ _ _ _ _ response); try assumption.
    unfold __safe_response_content. now rewrite (Htruthy _ Ht), Hjson.
  - intros e Ht Hjson He. apply (send_accepted _ _ _ _ _ response); try assumption.
    unfold __safe_response_content. now rewrite (Htruthy _ Ht), Hjson, He.
  - intros Ht. apply (send_accepted _ _ _ _ _ response); try assumption.
    unfold __safe_response_content. now rewrite Ht.
Qed.

(** The three bodies of the tests: a JSON body, the text [ok], no body. *)
Lemma C4_send_success_witness :
  send (sample_config (Return response_ok)) sample_chat build_stats ARGS
    GoogleChatBaseException.GOOGLE_CHAT_ERROR_CODES
  = (Return (Py.VList [Py.VBool true]), GoogleChatBaseException.GOOGLE_CHAT_ERROR_CODES)
  /\ send (sample_config (Return response_text)) sample_chat build_stats ARGS
       GoogleChatBaseException.GOOGLE_CHAT_ERROR_CODES
     = (Return (Py.VStr "ok"), GoogleChatBaseException.GOOGLE_CHAT_ERROR_CODES)
  /\ send (sample_config (Return response_empty)) sample_chat build_stats ARGS
       GoogleChatBaseException.GOOGLE_CHAT_ERROR_CODES
     = (Return Py.VNone, GoogleChatBaseException.GOOGLE_CHAT_ERROR_CODES).
Proof.
  split; [| split].
  - refine (proj1 (C4_send_success (sample_config (Return response_ok)) sample_chat
                     build_stats ARGS _ response_ok eq_refl _) _ _ eq_refl).
    + cbn. lia.
    + discriminate.
  - refine (proj1 (proj2 (C4_send_success (sample_config (Return response_text))
                            sample_chat build_stats ARGS _ response_text eq_refl _))
              _ _ eq_refl eq_refl).
    + cbn. lia.
    + discriminate.
  - refine (proj2 (proj2 (C4_send_success (sample_config (Return response_empty))
                            sample_chat build_stats ARGS _ response_empty eq_refl _))
              eq_refl).
    cbn. lia.
Defined.

(** C6. When the POST fails at the transport level, that is raises a
    [RequestException] (a connection error, a timeout after the 10 seconds
    the request is given, a DNS failure), [send] raises
    [GoogleChatClientError] with the transport error as its
    [original_exception]; a timeout is one of these and gets no kind of its
    own.  A [GoogleChatSendMessageError] leaves [send] as it is: a rejected
    response raises that class, not [GoogleChatClientError]. *)
Theorem C6_transport_failure (cfg : Config) (self : GoogleChat)
    (stats : gmap string Z) (args : string) (codes : error_codes) :
  REQUEST_TIMEOUT_SECONDS = 10
  /\ (forall error,
        send_post cfg self stats args = Raise error ->
        isinstance error Cls.RequestException = true ->
        exists e codes',
          send cfg self stats args codes = (Raise e, codes')
          /\ exc_class e = Cls.GoogleChatClientError
          /\ exc_code e = Some 9000
          /\ exc_original e = Some error
          /\ exc_message e = "Failed to call Google Chat webhook")
  /\ (forall detail,
        isinstance (PyExc Cls.Timeout detail) Cls.RequestException = true
        /\ isinstance (PyExc Cls.ConnectionError detail) Cls.RequestException = true)
  /\ (forall error,
        send_post cfg self stats args = Raise error ->
        isinstance error Cls.GoogleChatSendMessageError = true ->
        send cfg self stats args codes = (Raise error, codes))
  /\ (forall response,
        send_post cfg self stats args = Return response ->
        rejected response ->
        exists e codes',
          send cfg self stats args codes = (Raise e, codes')
          /\ exc_class e = Cls.GoogleChatSendMessageError
          /\ exc_class e <> Cls.GoogleChatClientError).
Proof.
  split; [reflexivity |]. split; [| split; [| split]].
  - intros error Hpost Hreq. do 2 eexists.
    split; [now apply (send_transport_error _ _ _ _ _ error) |].
    now repeat split.
  - intros detail. split; reflexivity.
  - intros error Hpost Hsend. now apply send_reraises.
  - intros response Hpost Hrej%rejected_iff. do 2 eexists.
    split; [now apply (send_rejected _ _ _ _ _ response) |].
    split; [reflexivity | discriminate].
Qed.

(** A timeout of the POST, as in the tests. *)
Lemma C6_transport_failure_witness :
  exists e codes',
    send (sample_config (Raise timeout_error)) sample_chat build_stats ARGS
      GoogleChatBaseException.GOOGLE_CHAT_ERROR_CODES = (Raise e, codes')
    /\ exc_class e = Cls.GoogleChatClientError
    /\ exc_code e = Some 9000
    /\ exc_original e = Some timeout_error
    /\ exc_message e = "Failed to call Google Chat webhook".
Proof.
  apply (proj1 (proj2 (C6_transport_failure (sample_config (Raise timeout_error))
                         sample_chat build_stats ARGS
                         GoogleChatBaseException.GOOGLE_CHAT_ERROR_CODES))
           timeout_error);
    reflexivity.
Defined.

(** C5. Whatever the URL and whatever goes wrong, [test_connection] with
    [raise_on_exception=False] returns; it returns a result that is not
    connected and carries an error exactly when the raising mode raises that
    same error, the error table ending in the same state, and that error is
    one of the Google Chat errors: [GoogleChatInvalidWebhookError] for an
    invalid URL, [GoogleChatSendMessageError] for a status outside
    [[200, 300)], [GoogleChatClientError] wrapping the exception for a
    transport error or any other exception of the POST.  A status in
    [[200, 300)] gives the connected result in both modes, whatever the
    body. *)
Theorem C5_test_connection_modes (cfg : Config) (url : Py.value)
    (codes : error_codes) :
  (exists c codes', test_connection cfg url false codes = (Return c, codes'))
  /\ (forall e codes',
        test_connection cfg url true codes = (Raise e, codes') <->
        test_connection cfg url false codes = (Return (not_connected e), codes'))
  /\ (forall e codes',
        test_connection cfg url true codes = (Raise e, codes') ->
        Cls.is_google_chat (exc_class e) = true)
  /\ (forall c codes',
        test_connection cfg url true codes = (Return c, codes') ->
        c = connected /\ codes' = codes
        /\ test_connection cfg url false codes = (Return connected, codes))
  /\ (~ valid_url url ->
      exists e codes',
        exc_class e = Cls.GoogleChatInvalidWebhookError
        /\ forall b, test_connection cfg url b codes = reported b e codes')
  /\ (forall s response,
        url = Py.VStr s -> valid_url url -> test_post cfg s = Return response ->
        (200 <= status_code response < 300 ->
         forall b, test_connection cfg url b codes = (Return connected, codes))
        /\ (rejected response ->
            exists e codes',
              exc_class e = Cls.GoogleChatSendMessageError
              /\ forall b, test_connection cfg url b codes = reported b e codes'))
  /\ (forall s error,
        url = Py.VStr s -> valid_url url -> test_post cfg s = Raise error ->
        Cls.is_google_chat (exc_class error) = false ->
        exists e codes',
          exc_class e = Cls.GoogleChatClientError
          /\ exc_original e = Some error
          /\ exc_message e =
               (if isinstance error Cls.RequestException
                then "Failed to reach Google Chat webhook"
                else "Unexpected error testing Google Chat webhook")
          /\ forall b, test_connection cfg url b codes = reported b e codes').
Proof.
  pose proof (test_connection_cases cfg codes url) as Hcases.
  repeat apply conj.
  - destruct Hcases as [Hok | (e & codes' & _ & Hrun)].
    + exists connected, codes. apply Hok.
    + exists (not_connected e), codes'. apply Hrun.
  - intros e codes'. destruct Hcases as [Hok | (e0 & codes0 & _ & Hrun)].
    + rewrite !Hok. split; intros H; discriminate H.
    + rewrite !Hrun. cbn. unfold not_connected.
      split; intros [= -> ->]; reflexivity.
  - intros e codes'. destruct Hcases as [Hok | (e0 & codes0 & Hgc & Hrun)].
    + rewrite Hok. discriminate.
    + rewrite Hrun. now intros [= <- _].
  - intros c codes'. destruct Hcases as [Hok | (e0 & codes0 & _ & Hrun)].
    + rewrite !Hok. now intros [= <- <-].
    + rewrite Hrun. discriminate.
  - apply test_connection_invalid.
  - intros s response -> Hv Hpost. split.
    + intros Hacc%accepted_iff. now apply (test_connection_accepted _ _ s response).
    + intros Hrej%rejected_iff. do 2 eexists.
      split; [| now apply (test_connection_rejected _ _ s response)]. reflexivity.
  - intros s error -> Hv Hpost Hgc. do 2 eexists.
    split; [| split; [| split; [| now apply (test_connection_wraps _ _ s error)]]].
    + reflexivity.
    + reflexivity.
    + cbn zeta. apply built_message. now destruct (isinstance _ _).
Qed.

(** The failures of the tests, none of them raised: the URL [https://invalid],
    status 500, and a timeout of the POST. *)
Lemma C5_test_connection_modes_witness :
  (exists e codes',
     exc_class e = Cls.GoogleChatInvalidWebhookError
     /\ forall b,
          test_connection (sample_config (Return response_ok))
            (Py.VStr "https://invalid") b
            GoogleChatBaseException.GOOGLE_CHAT_ERROR_CODES
          = reported b e codes')
  /\ (exists e codes',
        exc_class e = Cls.GoogleChatSendMessageError
        /\ forall b,
             test_connection (sample_config (Return response_oops))
               (Py.VStr WEBHOOK_URL) b
               GoogleChatBaseException.GOOGLE_CHAT_ERROR_CODES
             = reported b e codes')
  /\ (exists e codes',
        exc_class e = Cls.GoogleChatClientError
        /\ exc_original e = Some timeout_error
        /\ exc_message e = "Failed to reach Google Chat webhook"
        /\ forall b,
             test_connection (sample_config (Raise timeout_error))
               (Py.VStr WEBHOOK_URL) b
               GoogleChatBaseException.GOOGLE_CHAT_ERROR_CODES
             = reported b e codes').
Proof.
  assert (valid_url (Py.VStr WEBHOOK_URL)) as Hv.
  { exists WEBHOOK_URL. split; [reflexivity |]. split; [discriminate | reflexivity]. }
  split; [| split].
  - apply (C5_test_connection_modes (sample_config (Return response_ok))
             (Py.VStr "https://invalid")
             GoogleChatBaseException.GOOGLE_CHAT_ERROR_CODES).
    intros (s & [= <-] & _ & Hp). discriminate Hp.
  - apply (C5_test_connection_modes (sample_config (Return response_oops))
             (Py.VStr WEBHOOK_URL)
             GoogleChatBaseException.GOOGLE_CHAT_ERROR_CODES)
      with (s := WEBHOOK_URL) (response := response_oops);
      [reflexivity | exact Hv | reflexivity | right; cbn; lia].
  - apply (C5_test_connection_modes (sample_config (Raise timeout_error))
             (Py.VStr WEBHOOK_URL)
             GoogleChatBaseException.GOOGLE_CHAT_ERROR_CODES)
      with (s := WEBHOOK_URL) (error := timeout_error);
      [reflexivity | exact Hv | reflexivity | reflexivity].
Defined.

(** ** The identity section and the card *)

Lemma build_summary_title_present (identity : string) (stats : gmap string Z)
    (n : Z) :
  stats !! "findings_count" = Some n ->
  build_summary_title identity stats
  = greeting ++ identity ++ " with a total of *" ++ Py.str_of_int n ++ "* findings.".
Proof. intros H. unfold build_summary_title. now rewrite H. Qed.

Lemma build_summary_title_absent (identity : string) (stats : gmap string Z) :
  stats !! "findings_count" = None -> build_summary_title identity stats = "".
Proof. intros H. unfold build_summary_title. now rewrite H. Qed.

Lemma summary_contains_count (identity count : string) :
  Py.contains count
    (greeting ++ identity ++ " with a total of *" ++ count ++ "* findings.").
Proof.
  rewrite <- (append_assoc identity). rewrite <- (append_assoc greeting).
  apply contains_middle.
Qed.

(** With no [findings_count] in the stats the summary line is empty: the
    value the field defaults to everywhere else, 0, is not in it. *)
Lemma C7_identity_section_counterexample :
  exists environment summary,
    widgets (__build_identity_section "AWS Account *123456789012*" "aws_logo.png" ∅)
    = [ environment; textParagraph summary ]
    /\ ~ Py.contains (Py.str_of_int (stats_get ∅ "findings_count")) summary.
Proof.
  do 2 eexists. split; [reflexivity |].
  apply contains_empty. discriminate.
Qed.

(** C7, amended. The identity section is built for every stats mapping and
    every identity, an empty identity included: its first widget shows the
    identity, or [Unknown provider] when the identity is empty; its second
    widget is the summary line, which contains the value of [findings_count]
    when the stats have that field and is the empty string when they do
    not. *)
Theorem C7_identity_section (identity logo : string) (stats : gmap string Z) :
  exists summary : string,
    widgets (__build_identity_section identity logo stats) =
      [ decoratedText
          ("*Environment*" ++ Py.nl
           ++ first_non_empty [Some identity] "Unknown provider")
          None
          (Some {| altText := "Provider Logo"; icon_imageUrl := logo |});
        textParagraph summary ]
    /\ (forall n : Z,
          stats !! "findings_count" = Some n ->
          summary =
            greeting ++ first_non_empty [Some identity] "your environment"
            ++ " with a total of *" ++ Py.str_of_int n ++ "* findings."
          /\ Py.contains (Py.str_of_int n) summary)
    /\ (stats !! "findings_count" = None -> summary = "")
    /\ (forall cfg self args,
          exists header,
            cardsV2 (__build_message cfg self identity logo stats args) =
              [ {| cardId := "prowler-summary";
                   card :=
                     {| header := header;
                        sections :=
                          [ __build_identity_section identity logo stats;
                            __build_statistics_section stats;
                            __build_parameters_section args ] |} |} ]).
Proof.
  exists (build_summary_title (Py.or_else (Some identity) "your environment") stats).
  split; [| split; [| split]].
  - unfold __build_identity_section. now rewrite !or_else_first_non_empty.
  - intros n Hn. rewrite (build_summary_title_present _ _ _ Hn).
    rewrite or_else_first_non_empty.
    split; [reflexivity | apply summary_contains_count].
  - apply build_summary_title_absent.
  - intros cfg self args. eexists. reflexivity.
Qed.

(** The stats of the tests, with an empty identity: 22 findings on
    [your environment], shown under [Unknown provider]. *)
Lemma C7_identity_section_witness :
  exists summary : string,
    widgets (__build_identity_section "" "aws_logo.png" build_stats) =
      [ decoratedText ("*Environment*" ++ Py.nl ++ "Unknown provider") None
          (Some {| altText := "Provider Logo"; icon_imageUrl := "aws_logo.png" |});
        textParagraph summary ]
    /\ summary = greeting ++ "your environment with a total of *22* findings."
    /\ Py.contains "22" summary.
Proof.
  destruct (C7_identity_section "" "aws_logo.png" build_stats)
    as (summary & Hw & Hn & _).
  exists summary. split; [exact Hw |]. exact (Hn 22 eq_refl).
Defined.

(** A card header supplied as the empty string is not the title, and
    [AUTH_URL] set to the empty string is not the subtitle: the card shows
    the default title and the fallback subtitle. *)
Lemma C8_card_counterexample :
  exists self c,
    GoogleChat.__init__ (Py.VStr WEBHOOK_URL) sample_provider None (Some "")
      GoogleChatBaseException.GOOGLE_CHAT_ERROR_CODES
    = (Return self, GoogleChatBaseException.GOOGLE_CHAT_ERROR_CODES)
    /\ cardsV2 (__build_message (sample_config_in {[ "AUTH_URL" := "" ]}) self
                  "AWS Account *123456789012*" "aws_logo.png" build_stats ARGS)
       = [ c ]
    /\ title (header (card c)) = "Prowler Scan Summary"
    /\ title (header (card c)) <> ""
    /\ import_environ (sample_config_in {[ "AUTH_URL" := "" ]}) !! "AUTH_URL" = Some ""
    /\ subtitle (header (card c)) = "https://prowler.com"
    /\ subtitle (header (card c)) <> "".
Proof.
  do 2 eexists. split; [reflexivity |]. split; [reflexivity |].
  split; [reflexivity |]. split; [discriminate |]. split; [reflexivity |].
  split; [reflexivity | discriminate].
Qed.

(** C8, amended. The card of a notifier built with the overrides
    [space_name] and [card_header] has exactly the identity, statistics and
    parameters sections, in that order.  Its title is [card_header] when that
    is supplied and not empty, else [Prowler Scan Summary].  Its subtitle is
    [space_name] when that is supplied and not empty, else the first of the
    environment variables [AUTH_URL], [PROWLER_URL] that is set to a
    non-empty value, else [https://prowler.com]; this is stated for an
    environment in which the two variables are as they were when the module
    was imported. *)
Theorem C8_card (cfg : Config) (webhook_url : Py.value) (provider : Provider)
    (space_name card_header : option string) (codes codes' : error_codes)
    (self : GoogleChat) (environ : gmap string string)
    (identity logo : string) (stats : gmap string Z) (args : string) :
  GoogleChat.__init__ webhook_url provider space_name card_header codes
    = (Return self, codes') ->
  environ !! "AUTH_URL" = import_environ cfg !! "AUTH_URL" ->
  environ !! "PROWLER_URL" = import_environ cfg !! "PROWLER_URL" ->
  exists header,
    cardsV2 (__build_message cfg self identity logo stats args) =
      [ {| cardId := "prowler-summary";
           card :=
             {| header := header;
                sections :=
                  [ __build_identity_section identity logo stats;
                    __build_statistics_section stats;
                    __build_parameters_section args ] |} |} ]
    /\ title header = first_non_empty [card_header] "Prowler Scan Summary"
    /\ subtitle header =
         first_non_empty
           [space_name; environ !! "AUTH_URL"; environ !! "PROWLER_URL"]
           "https://prowler.com".
Proof.
  intros Hinit Hauth Hprowler. unfold GoogleChat.__init__ in Hinit.
  unfold_monad. unfold mbind, M_bind, mret, M_ret in Hinit.
  destruct (__validate_webhook_url webhook_url codes) as [[url | e] codes1];
    [| discriminate Hinit].
  injection Hinit as <- _.
  eexists. split; [reflexivity |]. cbn [title subtitle _card_header _space_name].
  split.
  - apply or_else_first_non_empty.
  - unfold DEFAULT_SUBTITLE. rewrite Hauth, Hprowler.
    destruct space_name as [s |], (import_environ cfg !! "AUTH_URL") as [a |],
      (import_environ cfg !! "PROWLER_URL") as [p |];
      cbn; unfold Py.truthy;
      repeat match goal with
             | |- context [String.eqb ?x ""] => destruct (String.eqb_spec x "")
             | |- context [decide (?x = "")] => destruct (decide (x = ""))
             end;
      cbn; congruence.
Qed.

(** The notifier of the tests, built without overrides, with [AUTH_URL] set
    to [https://prowler.internal] when the module is imported. *)
Lemma C8_card_witness :
  exists header,
    cardsV2 (__build_message
               (sample_config_in {[ "AUTH_URL" := "https://prowler.internal" ]})
               sample_chat "AWS Account *123456789012*" "aws_logo.png"
               build_stats ARGS) =
      [ {| cardId := "prowler-summary";
           card :=
             {| header := header;
                sections :=
                  [ __build_identity_section "AWS Account *123456789012*"
                      "aws_logo.png" build_stats;
                    __build_statistics_section build_stats;
                    __build_parameters_section ARGS ] |} |} ]
    /\ title header = "Prowler Scan Summary"
    /\ subtitle header = "https://prowler.internal".
Proof.
  exact (C8_card
           (sample_config_in {[ "AUTH_URL" := "https://prowler.internal" ]})
           (Py.VStr WEBHOOK_URL) sample_provider None None
           GoogleChatBaseException.GOOGLE_CHAT_ERROR_CODES
           GoogleChatBaseException.GOOGLE_CHAT_ERROR_CODES
           sample_chat {[ "AUTH_URL" := "https://prowler.internal" ]}
           "AWS Account *123456789012*" "aws_logo.png" build_stats ARGS
           eq_refl eq_refl eq_refl).
Defined.

(** ** The shared error table *)

Lemma construct_unfold (k : kind) file o message codes :
  construct k file o message codes
  = (Return (built (kind_class k) (kind_code k) file o message codes),
     updated_codes (kind_class k) (kind_code k) message codes).
Proof. destruct k; apply init_unfold. Qed.

(** Constructions change messages only: every reachable table has the three
    entries, each with the remediation the source gives it. *)
Lemma reachable_entries (codes : error_codes) :
  reachable codes ->
  forall k : kind,
    exists m : string,
      codes !! kind_key k
      = Some {| message := m; remediation := remediation (static_info k) |}.
Proof.
  induction 1 as [| cls code file o message codes e codes' _ IH Hinit].
  - intros k. destruct k; eexists; reflexivity.
  - intros k. rewrite init_unfold in Hinit. injection Hinit as _ <-.
    destruct (IH k) as (m & Hm). unfold updated_codes.
    destruct (GoogleChatBaseException.given message) as [m' |]; [| now exists m].
    rewrite lookup_alter. case_decide as Hkey.
    + rewrite Hkey, Hm. now exists m'.
    + now exists m.
Qed.

Lemma undisturbed_entry (k : kind) (codes codes' : error_codes) :
  undisturbed k codes codes' -> codes' !! kind_key k = codes !! kind_key k.
Proof.
  induction 1 as [| cls code file o message codes codes' e codes'' _ IH Hinit Hside];
    [reflexivity |].
  rewrite init_unfold in Hinit. injection Hinit as _ <-. rewrite <- IH.
  unfold updated_codes.
  destruct Hside as [Hkey | ->]; [| reflexivity].
  destruct (GoogleChatBaseException.given message); [| reflexivity].
  now apply lookup_alter_ne.
Qed.

(** An explicit but empty message changes nothing: the next error of the
    class still carries the static default, not the message given. *)
Lemma C10_shared_table_counterexample :
  exists e1 codes1 e2 codes2,
    GoogleChatSendMessageError None None (Some "")
      GoogleChatBaseException.GOOGLE_CHAT_ERROR_CODES = (Return e1, codes1)
    /\ GoogleChatSendMessageError None None None codes1 = (Return e2, codes2)
    /\ codes1 = GoogleChatBaseException.GOOGLE_CHAT_ERROR_CODES
    /\ exc_message e2 = "Google Chat message was not accepted"
    /\ exc_message e2 <> "".
Proof.
  do 4 eexists. split; [reflexivity |]. split; [reflexivity |].
  split; [reflexivity |]. split; [reflexivity | discriminate].
Qed.

(** C10, amended. Constructing an error of one of the three classes with a
    message [m] that is not empty writes [m] into the entry of that class in
    the shared table.  As long as no construction in between gives that class
    another message, an error of the same class constructed later with no
    message carries [m], not the static default; its code and its
    remediation are those of the source's table. *)
Theorem C10_shared_table (k : kind) (codes : error_codes) (m : string)
    (file1 file2 : option string) (original1 original2 : option exn) :
  reachable codes ->
  m <> "" ->
  exists e1 codes1,
    construct k file1 original1 (Some m) codes = (Return e1, codes1)
    /\ exc_message e1 = m
    /\ codes1 !! kind_key k
       = Some {| message := m; remediation := remediation (static_info k) |}
    /\ forall codes2,
         undisturbed k codes1 codes2 ->
         exists e2,
           construct k file2 original2 None codes2 = (Return e2, codes2)
           /\ exc_message e2 = m
           /\ (m <> message (static_info k) ->
               exc_message e2 <> message (static_info k))
           /\ exc_class e2 = kind_class k
           /\ exc_code e2 = Some (kind_code k)
           /\ exc_remediation e2 = Some (remediation (static_info k)).
Proof.
  intros Hreach Hm. destruct (reachable_entries codes Hreach k) as (m0 & Hentry).
  set (codes1 := updated_codes (kind_class k) (kind_code k) (Some m) codes).
  exists (built (kind_class k) (kind_code k) file1 original1 (Some m) codes), codes1.
  split; [apply construct_unfold |].
  split; [now apply built_message |].
  assert (codes1 !! kind_key k
          = Some {| message := m; remediation := remediation (static_info k) |})
    as Hupdated.
  { unfold codes1, updated_codes. rewrite (given_non_empty _ Hm).
    fold (kind_key k). now rewrite lookup_alter_eq, Hentry. }
  split; [exact Hupdated |].
  intros codes2 Hlater.
  exists (built (kind_class k) (kind_code k) file2 original2 None codes2).
  split; [apply construct_unfold |].
  assert (built_info (kind_class k) (kind_code k) None codes2
          = {| message := m; remediation := remediation (static_info k) |})
    as Hinfo.
  { unfold built_info. fold (kind_key k).
    now rewrite (undisturbed_entry _ _ _ Hlater), Hupdated. }
  unfold built. cbn [exc_message exc_class exc_code exc_remediation].
  rewrite Hinfo. now repeat split.
Qed.

(** The send-message error of the tests, then a client error with its own
    message, then a send-message error with no message, starting from the
    table as the source defines it. *)
Lemma C10_shared_table_witness :
  exists e1 codes1 e codes2 e2,
    GoogleChatSendMessageError (Some this_file) None
      (Some "Google Chat webhook returned 500: oops")
      GoogleChatBaseException.GOOGLE_CHAT_ERROR_CODES = (Return e1, codes1)
    /\ GoogleChatClientError (Some this_file) (Some timeout_error)
         (Some "Failed to call Google Chat webhook") codes1 = (Return e, codes2)
    /\ GoogleChatSendMessageError None None None codes2 = (Return e2, codes2)
    /\ exc_message e2 = "Google Chat webhook returned 500: oops"
    /\ exc_message e2 <> "Google Chat message was not accepted"
    /\ exc_code e2 = Some 9002
    /\ exc_remediation e2
       = Some "Review the response payload for details and adjust the request body.".
Proof.
  destruct (C10_shared_table SendMessageError
              GoogleChatBaseException.GOOGLE_CHAT_ERROR_CODES
              "Google Chat webhook returned 500: oops"
              (Some this_file) None None None reachable_initial)
    as (e1 & codes1 & H1 & _ & _ & Hlater); [discriminate |].
  destruct (GoogleChatClientError (Some this_file) (Some timeout_error)
              (Some "Failed to call Google Chat webhook") codes1)
    as [[e | e] codes2] eqn:Hclient;
    [| unfold GoogleChatClientError in Hclient; rewrite init_unfold in Hclient;
       discriminate Hclient].
  destruct (Hlater codes2)
    as (e2 & H2 & Hm & Hne & _ & Hcode & Hrem).
  { eapply undisturbed_step; [apply undisturbed_refl | exact Hclient |].
    left. discriminate. }
  exists e1, codes1, e, codes2, e2. repeat split; try assumption.
  apply Hne. discriminate.
Defined.

(** ** The helpers of utils.py *)

Lemma append_non_empty (s t : string) : s <> "" -> s ++ t <> "".
Proof. destruct s; [contradiction | discriminate]. Qed.

Lemma truthy_non_empty (s : string) : s <> "" -> Py.truthy s = true.
Proof. intros H. unfold Py.truthy. now destruct (String.eqb_spec s ""). Qed.

Lemma join_cons (g x : string) (l : list string) :
  Py.join g (x :: l) = x ++ fold_right (fun item r => g ++ item ++ r) "" l.
Proof.
  unfold Py.join. revert x. induction l as [| y l IH]; intros x.
  - cbn. now rewrite append_nil_r.
  - change (String.concat g (x :: y :: l)) with (x ++ g ++ String.concat g (y :: l)).
    now rewrite IH.
Qed.

(** A loop that starts a string with the first item that is not empty and
    from then on appends [g] and the item. *)
Lemma fold_left_accumulate (f : string -> string -> string) (g : string) :
  (forall item, f "" item = item) ->
  (forall acc item, acc <> "" -> f acc item = acc ++ g ++ item) ->
  forall l : list string, fold_left f l "" = Py.join g (drop_empty l).
Proof.
  intros Hfirst Hnext.
  assert (forall l acc, acc <> "" ->
            fold_left f l acc = acc ++ fold_right (fun item r => g ++ item ++ r) "" l)
    as Hfold.
  { induction l as [| item l IH]; intros acc Hacc; cbn [fold_left fold_right].
    - now rewrite append_nil_r.
    - rewrite (Hnext _ _ Hacc), IH by now apply append_non_empty.
      now rewrite !append_assoc. }
  induction l as [| item l IH]; [reflexivity |].
  cbn [fold_left]. rewrite Hfirst. destruct item as [| a item]; [exact IH |].
  cbn [drop_empty]. rewrite join_cons. now apply Hfold.
Qed.

Lemma unroll_list_join (listed_items : list string) (separator : string) :
  unroll_list listed_items separator
  = Py.join (glue separator) (drop_empty listed_items).
Proof.
  unfold unroll_list. destruct listed_items as [| first rest]; [reflexivity |].
  apply fold_left_accumulate.
  - reflexivity.
  - intros acc item Hacc. rewrite (truthy_non_empty _ Hacc). cbn [negb].
    unfold glue. destruct (String.eqb_spec separator "|") as [-> | _];
      [| now rewrite !append_assoc].
    reflexivity.
Qed.

Lemma drop_empty_id (l : list string) : Forall (fun s => s <> "") l -> drop_empty l = l.
Proof. intros H. destruct H as [| [| a s] l Hs _]; [reflexivity | contradiction | reflexivity]. Qed.

(** X1. [unroll_list] skips the empty strings the list starts with and joins
    the rest, empty strings included, with [" | "] for the separator [|] and
    with the separator and one space for any other separator.  When no item
    is empty the result is the join of the whole list, and the empty list
    gives the empty string. *)
Theorem X1_unroll_list (listed_items : list string) (separator : string) :
  unroll_list listed_items separator
  = Py.join (if String.eqb separator "|" then " | " else separator ++ " ")
      (drop_empty listed_items)
  /\ (Forall (fun item => item <> "") listed_items ->
      unroll_list listed_items separator
      = Py.join (if String.eqb separator "|" then " | " else separator ++ " ")
          listed_items)
  /\ unroll_list [] separator = "".
Proof.
  split; [apply unroll_list_join |]. split; [| reflexivity].
  intros Hitems. rewrite unroll_list_join. now rewrite (drop_empty_id _ Hitems).
Qed.

(** The examples of the docstring, and a list that starts and goes on with
    empty strings. *)
Lemma X1_unroll_list_witness :
  unroll_list ["apple"; "banana"; "orange"] "|" = "apple | banana | orange"
  /\ unroll_list ["apple"; "banana"; "orange"] "," = "apple, banana, orange"
  /\ unroll_list [""; ""; "apple"; ""; "orange"] "|" = "apple |  | orange".
Proof.
  split; [| split].
  - rewrite (proj1 (proj2 (X1_unroll_list ["apple"; "banana"; "orange"] "|")));
      [reflexivity |].
    repeat constructor; discriminate.
  - rewrite (proj1 (proj2 (X1_unroll_list ["apple"; "banana"; "orange"] ",")));
      [reflexivity |].
    repeat constructor; discriminate.
  - rewrite (proj1 (X1_unroll_list [""; ""; "apple"; ""; "orange"] "|")).
    reflexivity.
Defined.

Lemma join_no_separator (l : list string) :
  Py.join "" l = fold_right String.append "" l.
Proof.
  unfold Py.join. induction l as [| x [| y l] IH]; [reflexivity | |].
  - cbn. now rewrite append_nil_r.
  - change (String.concat "" (x :: y :: l)) with (x ++ "" ++ String.concat "" (y :: l)).
    now rewrite IH.
Qed.

Lemma split_bar_step (piece : string) (a : ascii) (s : string) :
  (forall rest, s <> String "|" rest) ->
  split_bar piece (String a s) = split_bar (piece ++ String a "") s.
Proof.
  intros Hs. cbn [split_bar]. destruct s as [| b [| c rest]]; try reflexivity.
  destruct (Ascii.eqb_spec b "|") as [-> | _]; [now destruct (Hs (String c rest)) |].
  now rewrite andb_false_r.
Qed.

Lemma bar_free_head (a : ascii) (s : string) :
  bar_free (String a s) = true -> a <> "|"%char /\ bar_free s = true.
Proof.
  cbn [bar_free]. intros [Ha Hs]%andb_true_iff. split; [| exact Hs].
  intros ->. discriminate Ha.
Qed.

(** A piece with no [|] in it is read to its end. *)
Lemma split_bar_piece (x : string) :
  bar_free x = true -> forall piece, split_bar piece x = [piece ++ x].
Proof.
  induction x as [| a x IH]; intros Hx piece.
  - cbn. now rewrite append_nil_r.
  - apply bar_free_head in Hx as [_ Hx]. rewrite split_bar_step.
    + rewrite (IH Hx). now rewrite append_assoc.
    + intros rest ->. now apply bar_free_head in Hx as [Hbar _].
Qed.

(** A piece with no [|] in it ends at the separator that follows it. *)
Lemma split_bar_separator (x rest : string) :
  bar_free x = true ->
  forall piece, split_bar piece (x ++ " | " ++ rest) = (piece ++ x) :: split_bar "" rest.
Proof.
  induction x as [| a x IH]; intros Hx piece.
  - cbn. now rewrite append_nil_r.
  - apply bar_free_head in Hx as [_ Hx].
    change (String a x ++ " | " ++ rest) with (String a (x ++ " | " ++ rest)).
    rewrite split_bar_step.
    + rewrite (IH Hx). now rewrite append_assoc.
    + intros tail Htail. destruct x as [| b x]; [discriminate Htail |].
      injection Htail as -> _. now apply bar_free_head in Hx as [Hbar _].
Qed.

Lemma split_bar_join (l : list string) :
  Forall (fun item => bar_free item = true) l -> l <> [] ->
  split_bar "" (Py.join " | " l) = l.
Proof.
  unfold Py.join. induction l as [| x [| y l] IH]; intros Hl Hne; [contradiction | |].
  - inversion_clear Hl as [| ? ? Hx _]. now rewrite (split_bar_piece _ Hx).
  - inversion_clear Hl as [| ? ? Hx Hrest].
    change (String.concat " | " (x :: y :: l))
      with (x ++ " | " ++ String.concat " | " (y :: l)).
    rewrite (split_bar_separator _ _ Hx). now rewrite IH.
Qed.

Lemma parse_fold (pieces : list string) (string : string) :
  fold_left
    (fun string elem =>
       if Py.truthy elem
       then string ++ Py.nl ++ "&#x2022;" ++ elem ++ Py.nl
       else string)
    pieces string
  = string ++ fold_right String.append "" (map bullet (List.filter Py.truthy pieces)).
Proof.
  revert string. induction pieces as [| elem pieces IH]; intros string;
    cbn [fold_left List.filter].
  - cbn. now rewrite append_nil_r.
  - rewrite IH. destruct (Py.truthy elem); [| reflexivity].
    cbn [map fold_right]. now rewrite append_assoc.
Qed.

Lemma filter_drop_empty (l : list string) :
  List.filter Py.truthy (drop_empty l) = List.filter Py.truthy l.
Proof. induction l as [| [| a s] l IH]; [reflexivity | exact IH | reflexivity]. Qed.

Lemma drop_empty_bar_free (l : list string) :
  Forall (fun item => bar_free item = true) l ->
  Forall (fun item => bar_free item = true) (drop_empty l).
Proof.
  induction 1 as [| [| a s] l Hx Hl IH]; [constructor | exact IH |].
  now constructor.
Qed.

(** X2. [parse_html_string] undoes [unroll_list]: for items with no [|] in
    them, the list unrolled with the default separator parses into one
    bullet per item that is not empty, in the order of the list. *)
Theorem X2_parse_html_string_unroll_list (items : list string) :
  Forall (fun item => bar_free item = true) items ->
  parse_html_string (unroll_list items "|")
  = Py.join "" (map bullet (List.filter Py.truthy items)).
Proof.
  intros Hitems. rewrite unroll_list_join, join_no_separator.
  change (glue "|") with " | ".
  rewrite <- filter_drop_empty. apply drop_empty_bar_free in Hitems.
  unfold parse_html_string. rewrite parse_fold.
  destruct (drop_empty items) as [| x l] eqn:Hdrop; [reflexivity |].
  now rewrite (split_bar_join _ Hitems).
Qed.

(** The example of the docstring of [parse_html_string]. *)
Lemma X2_parse_html_string_unroll_list_witness :
  parse_html_string "item1 | item2 | item3"
  = Py.nl ++ "&#x2022;item1" ++ Py.nl ++ Py.nl ++ "&#x2022;item2" ++ Py.nl
    ++ Py.nl ++ "&#x2022;item3" ++ Py.nl.
Proof.
  change "item1 | item2 | item3" with (unroll_list ["item1"; "item2"; "item3"] "|").
  rewrite (X2_parse_html_string_unroll_list ["item1"; "item2"; "item3"]);
    [reflexivity |].
  repeat constructor.
Defined.

Lemma append_non_empty_r (s t : string) : t <> "" -> s ++ t <> "".
Proof. destruct s; [trivial | discriminate]. Qed.

Lemma unroll_dict_to_list_map (dict : list (string * dict_value)) :
  unroll_dict_to_list dict = map (printed_item ":") dict.
Proof.
  unfold unroll_dict_to_list.
  assert (forall acc,
            fold_left
              (fun (dict_list : list string) '(key, value) =>
                 match value with
                 | DList l => app dict_list [key ++ ":" ++ Py.join ", " l]
                 | _ => app dict_list [key ++ ":" ++ printed_value value]
                 end)
              dict acc
            = app acc (map (printed_item ":") dict)) as Hfold.
  { induction dict as [| [key value] dict IH]; intros acc; cbn [fold_left map].
    - now rewrite app_nil_r.
    - destruct value; rewrite IH, <- List.app_assoc; reflexivity. }
  apply Hfold.
Qed.

Lemma unroll_dict_join (dict : list (string * dict_value)) (separator : string) :
  unroll_dict dict separator
  = Py.join " | " (drop_empty (map (printed_item separator) dict)).
Proof.
  set (f := fun acc item => if negb (Py.truthy acc) then item
                            else acc ++ " | " ++ item).
  assert (forall acc,
            fold_left
              (fun unrolled_items '(key, value) =>
                 let value := printed_value value in
                 if negb (Py.truthy unrolled_items) then key ++ separator ++ value
                 else unrolled_items ++ " | " ++ key ++ separator ++ value)
              dict acc
            = fold_left f (map (printed_item separator) dict) acc) as Hfold.
  { induction dict as [| [key value] dict IH]; intros acc; [reflexivity |].
    cbn [fold_left map]. now rewrite IH. }
  unfold unroll_dict. rewrite Hfold. apply fold_left_accumulate.
  - reflexivity.
  - intros acc item Hacc. unfold f. now rewrite (truthy_non_empty _ Hacc).
Qed.

Lemma printed_items_non_empty (dict : list (string * dict_value)) (separator : string) :
  separator <> "" ->
  Forall (fun s => s <> "") (map (printed_item separator) dict).
Proof.
  intros Hsep. induction dict as [| item dict IH]; constructor; [| exact IH].
  unfold printed_item. apply append_non_empty_r. now apply append_non_empty.
Qed.

(** X3. [unroll_dict_to_list] gives, for each item of the dictionary in
    order, the key, a colon and the value, a list value joined with [", "];
    [unroll_dict] joins the same texts, written with its separator, with
    [" | "], so that with the separator [:] it is the join of
    [unroll_dict_to_list].  With the empty separator the items that print as
    the empty string are skipped at the start. *)
Theorem X3_unroll_dict (dict : list (string * dict_value)) (separator : string) :
  unroll_dict_to_list dict = map (printed_item ":") dict
  /\ unroll_dict dict ":" = Py.join " | " (unroll_dict_to_list dict)
  /\ (separator <> "" ->
      unroll_dict dict separator = Py.join " | " (map (printed_item separator) dict))
  /\ unroll_dict dict separator
     = Py.join " | " (drop_empty (map (printed_item separator) dict)).
Proof.
  split; [apply unroll_dict_to_list_map |].
  split; [| split; [| apply unroll_dict_join]].
  - rewrite unroll_dict_join, unroll_dict_to_list_map.
    rewrite drop_empty_id; [reflexivity |].
    apply printed_items_non_empty. discriminate.
  - intros Hsep. rewrite unroll_dict_join.
    now rewrite (drop_empty_id _ (printed_items_non_empty dict _ Hsep)).
Qed.

(** The dictionary of the docstrings, with the default separator [=]. *)
Lemma X3_unroll_dict_witness :
  unroll_dict
    [("name", DStr "John"); ("age", DInt 30); ("hobbies", DList ["reading"; "coding"])]
    "="
  = "name=John | age=30 | hobbies=reading, coding"
  /\ unroll_dict_to_list
       [("name", DStr "John"); ("age", DInt 30); ("hobbies", DList ["reading"; "coding"])]
     = ["name:John"; "age:30"; "hobbies:reading, coding"].
Proof.
  split.
  - rewrite (proj1 (proj2 (proj2 (X3_unroll_dict _ "=")))); [reflexivity | discriminate].
  - rewrite (proj1 (X3_unroll_dict _ "")). reflexivity.
Defined.

(** ** Tags *)

Lemma worth_unrolling_key_value (tag : tag_dict) (rest : list tag_dict) :
  is_Some (tag !! "Key") -> worth_unrolling (map Some (tag :: rest)) = true.
Proof.
  intros [key Hkey]. destruct rest; [| reflexivity]. cbn.
  rewrite bool_decide_eq_false_2; [reflexivity |].
  intros ->. now rewrite lookup_empty in Hkey.
Qed.

Lemma parse_each_lookup (tags : list tag_dict) :
  Forall key_value_tag tags ->
  forall dict_tags,
    exists m,
      parse_each (map Some tags) dict_tags = Return m
      /\ forall k, m !! k = match last_value k tags with
                            | Some v => Some v
                            | None => dict_tags !! k
                            end.
Proof.
  induction 1 as [| tag tags [[key Hkey] [value Hvalue]] _ IH]; intros dict_tags.
  - now exists dict_tags.
  - cbn [map parse_each]. rewrite Hkey, Hvalue.
    destruct (IH (<[ key := value ]> dict_tags)) as (m & Hrun & Hm).
    exists m. split; [exact Hrun |]. intros k. rewrite Hm. cbn [last_value].
    destruct (last_value k tags); [reflexivity |].
    rewrite Hkey, Hvalue, lookup_insert.
    destruct (decide (key = k)) as [-> | Hne].
    + now rewrite decide_True.
    + rewrite decide_False; [reflexivity | congruence].
Qed.

Lemma keyed_parse_each (tags : list tag_dict) :
  Forall key_value_tag tags ->
  forall acc, keyed "Key" "Value" (map Some tags) acc = parse_each (map Some tags) acc.
Proof.
  induction 1 as [| tag tags [[key Hkey] [value Hvalue]] _ IH]; intros acc;
    [reflexivity |].
  cbn [map keyed parse_each]. rewrite Hkey, Hvalue. apply IH.
Qed.

(** X4. On a list of tags that each have a ["Key"] and a ["Value"],
    [parse_json_tags] returns the dictionary in which a key is the ["Key"] of
    some tag and its value is the ["Value"] of the last tag with that
    ["Key"]. *)
Theorem X4_parse_json_tags (tags : list tag_dict) :
  Forall key_value_tag tags ->
  exists m : tag_dict,
    parse_json_tags (map Some tags) = Return m
    /\ forall k, m !! k = last_value k tags.
Proof.
  intros Htags. unfold parse_json_tags.
  destruct Htags as [| tag tags [Hkey Hvalue] Htags]; [now exists ∅ |].
  rewrite (worth_unrolling_key_value _ _ Hkey).
  destruct (parse_each_lookup (tag :: tags)) with (dict_tags := (∅ : tag_dict))
    as (m & Hrun & Hm); [now constructor |].
  exists m. split; [exact Hrun |]. intros k. rewrite Hm.
  destruct (last_value k (tag :: tags)); [reflexivity | apply lookup_empty].
Qed.

(** The tags of the docstring, with the first name given again. *)
Lemma X4_parse_json_tags_witness :
  exists m : tag_dict,
    parse_json_tags
      [ Some {[ "Key" := "Name"; "Value" := "John" ]};
        Some {[ "Key" := "Age"; "Value" := "30" ]};
        Some {[ "Key" := "Name"; "Value" := "Jane" ]} ]
    = Return m
    /\ m !! "Name" = Some "Jane" /\ m !! "Age" = Some "30" /\ m !! "City" = None.
Proof.
  destruct (X4_parse_json_tags
              [ {[ "Key" := "Name"; "Value" := "John" ]};
                {[ "Key" := "Age"; "Value" := "30" ]};
                {[ "Key" := "Name"; "Value" := "Jane" ]} ])
    as (m & Hrun & Hm).
  { repeat constructor; eexists; reflexivity. }
  exists m. split; [exact Hrun |]. rewrite !Hm. repeat split.
Defined.

(** X5. On a list of tags that each have a ["Key"] and a ["Value"], the
    first of them without a ["key"], [unroll_tags] returns what
    [parse_json_tags] returns. *)
Theorem X5_unroll_tags_parse_json_tags (first : tag_dict) (rest : list tag_dict) :
  Forall key_value_tag (first :: rest) ->
  first !! "key" = None ->
  unroll_tags (TagsItems (map Some (first :: rest)))
  = parse_json_tags (map Some (first :: rest)).
Proof.
  intros Htags Hfirst. unfold unroll_tags, parse_json_tags.
  inversion Htags as [| ? ? [Hkey Hvalue] _]; subst.
  rewrite (worth_unrolling_key_value _ _ Hkey). cbn [map].
  rewrite bool_decide_eq_false_2 by (rewrite Hfirst; now intros [? ?]).
  rewrite bool_decide_eq_true_2 by exact Hkey.
  now apply (keyed_parse_each (first :: rest)).
Qed.

(** The tags of the docstring of [parse_json_tags]. *)
Lemma X5_unroll_tags_parse_json_tags_witness :
  unroll_tags
    (TagsItems [ Some {[ "Key" := "Name"; "Value" := "John" ]};
                 Some {[ "Key" := "Age"; "Value" := "30" ]} ])
  = parse_json_tags [ Some {[ "Key" := "Name"; "Value" := "John" ]};
                      Some {[ "Key" := "Age"; "Value" := "30" ]} ].
Proof.
  apply (X5_unroll_tags_parse_json_tags
           {[ "Key" := "Name"; "Value" := "John" ]}
           [ {[ "Key" := "Age"; "Value" := "30" ]} ]);
    [| reflexivity].
  repeat constructor; eexists; reflexivity.
Defined.





Lemma names_lookup (names : list string) (acc : tag_dict) (n : string) :
  fold_left (fun acc tag => <[ tag := "" ]> acc) names acc !! n
  = if decide (n ∈ names) then Some "" else acc !! n.
Proof.
  revert acc. induction names as [| tag names IH]; intros acc; cbn [fold_left].
  - rewrite decide_False; [reflexivity | apply not_elem_of_nil].
  - rewrite IH. destruct (decide (n ∈ names)) as [Hin | Hout].
    + rewrite decide_True; [reflexivity | now right].
    + rewrite lookup_insert. destruct (decide (tag = n)) as [-> | Hne].
      * rewrite decide_True; [reflexivity | now left].
      * rewrite decide_False; [reflexivity |].
        intros [-> | Hin]%elem_of_cons; contradiction.
Qed.

Lemma merged_lookup (dicts : list tag_dict) :
  forall acc,
    exists m,
      merged (map Some dicts) acc = Return m
      /\ forall k, m !! k = match last_lookup k dicts with
                            | Some v => Some v
                            | None => acc !! k
                            end.
Proof.
  induction dicts as [| d dicts IH]; intros acc.
  - now exists acc.
  - cbn [map merged]. destruct (IH (d ∪ acc)) as (m & Hrun & Hm).
    exists m. split; [exact Hrun |]. intros k. rewrite Hm. cbn [last_lookup].
    destruct (last_lookup k dicts); [reflexivity |].
    rewrite lookup_union. now destruct (d !! k), (acc !! k).
Qed.

(** X7. Given a list of names, [unroll_tags] returns the dictionary that
    maps each name of the list, and nothing else, to the empty string.
    Given a list of dictionaries whose first has neither a ["key"] nor a
    ["Key"], it merges them: a key has the value of the last dictionary that
    has it. *)
Theorem X7_unroll_tags_names_and_dicts :
  (forall names : list string,
     exists m : tag_dict,
       unroll_tags (TagsNames names) = Return m
       /\ forall n, m !! n = if decide (n ∈ names) then Some "" else None)
  /\ (forall (first : tag_dict) (rest : list tag_dict),
        first <> ∅ -> first !! "key" = None -> first !! "Key" = None ->
        exists m : tag_dict,
          unroll_tags (TagsItems (map Some (first :: rest))) = Return m
          /\ forall k, m !! k = last_lookup k (first :: rest)).
Proof.
  split.
  - intros names. eexists. split; [reflexivity |].
    intros n. rewrite names_lookup. now rewrite lookup_empty.
  - intros first rest Hne Hkey HKey. unfold unroll_tags.
    assert (worth_unrolling (map Some (first :: rest)) = true) as ->.
    { destruct rest; [| reflexivity]. cbn. now rewrite bool_decide_eq_false_2. }
    cbn [map].
    rewrite !bool_decide_eq_false_2
      by (rewrite ?Hkey, ?HKey; now intros [? ?]).
    destruct (merged_lookup (first :: rest) ∅) as (m & Hrun & Hm).
    exists m. split; [exact Hrun |]. intros k. rewrite Hm.
    destruct (last_lookup k (first :: rest)); [reflexivity | apply lookup_empty].
Qed.

(** The names and the plain dictionary of the docstring, the dictionary
    followed by one that gives [name] again. *)
Lemma X7_unroll_tags_names_and_dicts_witness :
  (exists m : tag_dict,
     unroll_tags (TagsNames ["name"; "age"]) = Return m
     /\ m !! "name" = Some "" /\ m !! "age" = Some "" /\ m !! "city" = None)
  /\ (exists m : tag_dict,
        unroll_tags
          (TagsItems [ Some {[ "name" := "John"; "age" := "30" ]};
                       Some {[ "name" := "Jane" ]} ])
        = Return m
        /\ m !! "name" = Some "Jane" /\ m !! "age" = Some "30").
Proof.
  split.
  - destruct (proj1 X7_unroll_tags_names_and_dicts ["name"; "age"])
      as (m & Hrun & Hm).
    exists m. split; [exact Hrun |]. rewrite !Hm. repeat split.
  - destruct (proj2 X7_unroll_tags_names_and_dicts
                {[ "name" := "John"; "age" := "30" ]} [ {[ "name" := "Jane" ]} ])
      as (m & Hrun & Hm); [| reflexivity | reflexivity |].
    { intros H. apply (f_equal (fun d : tag_dict => d !! "name")) in H.
      discriminate H. }
    exists m. split; [exact Hrun |]. rewrite !Hm. repeat split.
Defined.

(** ** More on [send], the constructor and the provider *)

Lemma isinstance_send_message_error (error : exn) :
  isinstance error Cls.GoogleChatSendMessageError = true ->
  exc_class error = Cls.GoogleChatSendMessageError.
Proof. unfold isinstance. now destruct (exc_class error). Qed.

(** What the [except] clauses of [send] do with an exception of the [try]
    block. *)
Lemma send_handler (cfg : Config) (self : GoogleChat) (stats : gmap string Z)
    (args : string) (codes : error_codes) (error : exn) :
  send_post cfg self stats args = Raise error
  \/ (exists response,
        send_post cfg self stats args = Return response
        /\ accepted response = true
        /\ __safe_response_content response = Raise error) ->
  send cfg self stats args codes =
    if isinstance error Cls.GoogleChatSendMessageError then (Raise error, codes)
    else
      let message :=
        if isinstance error Cls.RequestException
        then "Failed to call Google Chat webhook"
        else "Unexpected error building Google Chat message" in
      (Raise (built Cls.GoogleChatClientError 9000 (Some this_file) (Some error)
                (Some message) codes),
       updated_codes Cls.GoogleChatClientError 9000 (Some message) codes).
Proof.
  intros [Hpost | (response & Hpost & Hacc & Hbody)]; rewrite send_unfold; run;
    rewrite Hpost, ?Hacc, ?Hbody;
    now destruct (isinstance error Cls.GoogleChatSendMessageError),
                 (isinstance error Cls.RequestException).
Qed.

(** X8. Whatever the provider, the stats, the response or the failure of the
    POST, an exception that leaves [send] is a [GoogleChatClientError] or a
    [GoogleChatSendMessageError]; when [send] returns, the error table is as
    it was. *)
Theorem X8_send_raises_typed (cfg : Config) (self : GoogleChat)
    (stats : gmap string Z) (args : string) (codes : error_codes) :
  (forall e codes',
     send cfg self stats args codes = (Raise e, codes') ->
     exc_class e = Cls.GoogleChatClientError
     \/ exc_class e = Cls.GoogleChatSendMessageError)
  /\ (forall body codes',
        send cfg self stats args codes = (Return body, codes') -> codes' = codes).
Proof.
  assert (forall error,
            (if isinstance error Cls.GoogleChatSendMessageError
             then (Raise error, codes)
             else
               let message :=
                 if isinstance error Cls.RequestException
                 then "Failed to call Google Chat webhook"
                 else "Unexpected error building Google Chat message" in
               (Raise (built Cls.GoogleChatClientError 9000 (Some this_file)
                         (Some error) (Some message) codes),
                updated_codes Cls.GoogleChatClientError 9000 (Some message) codes))
            = send cfg self stats args codes ->
            (forall e codes',
               send cfg self stats args codes = (Raise e, codes') ->
               exc_class e = Cls.GoogleChatClientError
               \/ exc_class e = Cls.GoogleChatSendMessageError)
            /\ (forall (body : Py.value) codes',
                  send cfg self stats args codes = (Return body, codes') ->
                  codes' = codes)) as Hhandled.
  { intros error <-.
    destruct (isinstance error Cls.GoogleChatSendMessageError) eqn:Hsend.
    - split; [| discriminate]. intros e codes' [= <- _]. right.
      now apply isinstance_send_message_error.
    - cbn zeta. split; [| discriminate]. intros e codes' [= <- _]. now left. }
  destruct (send_post cfg self stats args) as [response | error] eqn:Hpost.
  - destruct (accepted response) eqn:Hacc.
    + destruct (__safe_response_content response) as [body | error] eqn:Hbody.
      * rewrite (send_accepted _ _ _ _ _ response body Hpost Hacc Hbody).
        split; [discriminate | now intros ? ? [= _ <-]].
      * apply (Hhandled error). symmetry. apply send_handler. right. now exists response.
    + rewrite (send_rejected _ _ _ _ _ response Hpost Hacc).
      split; [| discriminate]. intros e codes' [= <- _]. now right.
  - apply (Hhandled error). symmetry. apply send_handler. now left.
Qed.

(** X9. An exception of the POST that is neither a [RequestException] nor a
    [GoogleChatSendMessageError], and likewise an exception of
    [response.json()] that is not a [ValueError] on an accepted response with
    a body, leaves [send] as a [GoogleChatClientError] with the message
    [Unexpected error building Google Chat message] that wraps it. *)
Theorem X9_send_unexpected (cfg : Config) (self : GoogleChat)
    (stats : gmap string Z) (args : string) (codes : error_codes) (error : exn) :
  isinstance error Cls.RequestException = false ->
  isinstance error Cls.GoogleChatSendMessageError = false ->
  send_post cfg self stats args = Raise error
  \/ (exists response,
        send_post cfg self stats args = Return response
        /\ 200 <= status_code response < 300
        /\ text response <> ""
        /\ json response = Raise error
        /\ isinstance error Cls.ValueError = false) ->
  exists e codes',
    send cfg self stats args codes = (Raise e, codes')
    /\ exc_class e = Cls.GoogleChatClientError
    /\ exc_original e = Some error
    /\ exc_message e = "Unexpected error building Google Chat message".
Proof.
  intros Hreq Hsend Hwhere. do 2 eexists. split.
  - rewrite (send_handler cfg self stats args codes error).
    + rewrite Hsend, Hreq. reflexivity.
    + destruct Hwhere as [Hpost | (response & Hpost & Hacc & Htext & Hjson & Hvalue)];
        [now left | right].
      exists response. split; [exact Hpost |]. split; [now apply accepted_iff |].
      unfold __safe_response_content.
      now rewrite (truthy_non_empty _ Htext), Hjson, Hvalue.
  - now repeat split.
Qed.

(** A [TypeError] of the POST, and a [TypeError] of [response.json()]. *)
Lemma X9_send_unexpected_witness :
  (exists e codes',
     send (sample_config (Raise (PyExc Cls.TypeError "not serializable")))
       sample_chat build_stats ARGS
       GoogleChatBaseException.GOOGLE_CHAT_ERROR_CODES = (Raise e, codes')
     /\ exc_class e = Cls.GoogleChatClientError
     /\ exc_original e = Some (PyExc Cls.TypeError "not serializable")
     /\ exc_message e = "Unexpected error building Google Chat message")
  /\ (exists e codes',
        send (sample_config
                (Return {| status_code := 200; text := "ok";
                           json := Raise (PyExc Cls.TypeError "no decoder") |}))
          sample_chat build_stats ARGS
          GoogleChatBaseException.GOOGLE_CHAT_ERROR_CODES = (Raise e, codes')
        /\ exc_class e = Cls.GoogleChatClientError
        /\ exc_original e = Some (PyExc Cls.TypeError "no decoder")
        /\ exc_message e = "Unexpected error building Google Chat message").
Proof.
  split.
  - apply X9_send_unexpected; [reflexivity | reflexivity | now left].
  - apply X9_send_unexpected; [reflexivity | reflexivity | right].
    eexists. split; [reflexivity |]. split; [cbn; lia |].
    split; [discriminate |]. split; reflexivity.
Defined.

(** Status 500, as in the tests: the exception is of the second class. *)
Lemma X8_send_raises_typed_witness :
  exists e codes',
    send (sample_config (Return response_oops)) sample_chat build_stats ARGS
      GoogleChatBaseException.GOOGLE_CHAT_ERROR_CODES = (Raise e, codes')
    /\ (exc_class e = Cls.GoogleChatClientError
        \/ exc_class e = Cls.GoogleChatSendMessageError).
Proof.
  do 2 eexists. split; [reflexivity |].
  exact (proj1 (X8_send_raises_typed (sample_config (Return response_oops))
                  sample_chat build_stats ARGS
                  GoogleChatBaseException.GOOGLE_CHAT_ERROR_CODES)
           _ _ eq_refl).
Defined.

Lemma or_else_non_empty (o : option string) (d : string) :
  d <> "" -> Py.or_else o d <> "".
Proof.
  intros Hd. destruct o as [s |]; [| exact Hd]. cbn. unfold Py.truthy.
  now destruct (String.eqb_spec s "").
Qed.

(** X10. Constructing a notifier succeeds exactly for a valid webhook URL and
    raises [GoogleChatInvalidWebhookError] otherwise.  A notifier that was
    constructed holds the URL it was given, which is valid, the provider and
    the space name it was given, and a card header that is never empty; its
    construction leaves the error table as it was. *)
Theorem X10_constructor (webhook_url : Py.value) (provider : Provider)
    (space_name card_header : option string) (codes : error_codes) :
  (forall self codes',
     GoogleChat.__init__ webhook_url provider space_name card_header codes
       = (Return self, codes') ->
     Py.VStr (GoogleChat.webhook_url self) = webhook_url
     /\ valid_url (Py.VStr (GoogleChat.webhook_url self))
     /\ _provider self = provider
     /\ _space_name self = space_name
     /\ _card_header self <> ""
     /\ codes' = codes)
  /\ (valid_url webhook_url ->
      exists self,
        GoogleChat.__init__ webhook_url provider space_name card_header codes
          = (Return self, codes))
  /\ (~ valid_url webhook_url ->
      exists e codes',
        GoogleChat.__init__ webhook_url provider space_name card_header codes
          = (Raise e, codes')
        /\ exc_class e = Cls.GoogleChatInvalidWebhookError).
Proof.
  unfold GoogleChat.__init__. unfold_monad.
  destruct (valid_url_dec webhook_url) as [Hv | Hv].
  - pose proof Hv as (s & -> & Hs & Hp). rewrite (validate_accepts _ _ Hs Hp).
    split; [| split; [| contradiction]].
    + intros self codes' [= <- <-]. cbn. repeat split; try assumption.
      now apply or_else_non_empty.
    + intros _. eexists. reflexivity.
  - destruct (validate_rejects webhook_url codes Hv) as (m & _ & Hrun).
    rewrite Hrun. split; [discriminate |]. split; [contradiction |].
    intros _. do 2 eexists. split; reflexivity.
Qed.

(** The notifier of the tests, and an empty card header. *)
Lemma X10_constructor_witness :
  exists self,
    GoogleChat.__init__ (Py.VStr WEBHOOK_URL) sample_provider None (Some "")
      GoogleChatBaseException.GOOGLE_CHAT_ERROR_CODES
    = (Return self, GoogleChatBaseException.GOOGLE_CHAT_ERROR_CODES)
    /\ GoogleChat.webhook_url self = WEBHOOK_URL
    /\ _card_header self <> "".
Proof.
  eexists. split; [reflexivity |].
  destruct (proj1 (X10_constructor (Py.VStr WEBHOOK_URL) sample_provider None (Some "")
                     GoogleChatBaseException.GOOGLE_CHAT_ERROR_CODES)
              _ _ eq_refl) as (Hurl & _ & _ & _ & Hheader & _).
  split; [reflexivity | exact Hheader].
Defined.

(** X11. The identity is empty exactly when the provider could not be
    described: its [type] is missing or is none of [aws], [gcp], [azure], or
    the attribute its branch reads is missing.  The logo is then the AWS
    one, whatever the type: the GCP and Azure logos are only returned with an
    identity. *)
Theorem X11_provider_identity (cfg : Config) (provider : Provider) :
  let described :=
    (type provider = Some "aws" /\ is_Some (identity_account provider))
    \/ (type provider = Some "gcp" /\ is_Some (project_ids provider))
    \/ (type provider = Some "azure" /\ is_Some (identity_subscriptions provider)) in
  (described -> fst (get_provider_identity_and_logo cfg provider) <> "")
  /\ (~ described ->
      get_provider_identity_and_logo cfg provider = ("", aws_logo cfg))
  /\ (fst (get_provider_identity_and_logo cfg provider) = "" ->
      snd (get_provider_identity_and_logo cfg provider) = aws_logo cfg).
Proof.
  cbn zeta. unfold get_provider_identity_and_logo.
  destruct provider as [[ty |] account ids subs]; cbn [type identity_account
    project_ids identity_subscriptions mbind option_bind default].
  2: { split; [| split]; [| reflexivity | reflexivity].
       intros [[H _] | [[H _] | [H _]]]; discriminate H. }
  destruct (String.eqb_spec ty "aws") as [-> | Haws].
  { destruct account as [a |]; cbn.
    - split; [discriminate |]. split; [| discriminate].
      intros H. exfalso. apply H. left. split; [reflexivity | now exists a].
    - split; [| split; reflexivity].
      intros [[_ [? H]] | [[H _] | [H _]]]; discriminate H. }
  destruct (String.eqb_spec ty "gcp") as [-> | Hgcp].
  { destruct ids as [l |]; cbn.
    - split; [discriminate |]. split; [| discriminate].
      intros H. exfalso. apply H. right. left. split; [reflexivity | now exists l].
    - split; [| split; reflexivity].
      intros [[H _] | [[_ [? H]] | [H _]]]; discriminate H. }
  destruct (String.eqb_spec ty "azure") as [-> | Hazure].
  { destruct subs as [l |]; cbn.
    - split; [discriminate |]. split; [| discriminate].
      intros H. exfalso. apply H. right. right. split; [reflexivity | now exists l].
    - split; [| split; reflexivity].
      intros [[H _] | [[H _] | [_ [? H]]]]; discriminate H. }
  cbn. split; [| split; reflexivity].
  intros [[[= H] _] | [[[= H] _] | [[= H] _]]]; congruence.
Qed.

(** A GCP provider whose project ids cannot be read: no identity, and the
    AWS logo. *)
Lemma X11_provider_identity_witness :
  get_provider_identity_and_logo (sample_config (Return response_ok))
    {| type := Some "gcp"; identity_account := None; project_ids := None;
       identity_subscriptions := None |}
  = ("", "aws_logo.png").
Proof.
  apply (proj1 (proj2 (X11_provider_identity (sample_config (Return response_ok))
                         {| type := Some "gcp"; identity_account := None;
                            project_ids := None; identity_subscriptions := None |}))).
  intros [[H _] | [[_ [? H]] | [H _]]]; discriminate H.
Defined.

(** ** The error table over a run *)

Lemma given_Some (message : option string) (m : string) :
  GoogleChatBaseException.given message = Some m -> m <> "".
Proof.
  unfold GoogleChatBaseException.given, Py.truthy. destruct message as [m' |]; [| discriminate].
  destruct (String.eqb_spec m' "") as [-> | Hne]; [discriminate |].
  now intros [= <-].
Qed.

Lemma static_entries (key : Z * string) (info : ErrorInfo) :
  GoogleChatBaseException.GOOGLE_CHAT_ERROR_CODES !! key = Some info ->
  message info <> "".
Proof.
  unfold GoogleChatBaseException.GOOGLE_CHAT_ERROR_CODES.
  rewrite !lookup_insert, lookup_empty.
  repeat case_decide; intros [= <-]; discriminate.
Qed.

(** Every reachable table has the keys of the source's table, and each entry
    has a message that is not empty and the remediation of the source. *)
Lemma reachable_invariant (codes : error_codes) :
  reachable codes ->
  dom codes = dom GoogleChatBaseException.GOOGLE_CHAT_ERROR_CODES
  /\ forall key info,
       codes !! key = Some info ->
       message info <> ""
       /\ remediation <$> (GoogleChatBaseException.GOOGLE_CHAT_ERROR_CODES !! key)
          = Some (remediation info).
Proof.
  induction 1 as [| cls code file o msg codes e codes' _ [IHdom IH] Hinit].
  - split; [reflexivity |]. intros key info Hkey.
    split; [now apply (static_entries key) | now rewrite Hkey].
  - rewrite init_unfold in Hinit. injection Hinit as _ <-. unfold updated_codes.
    destruct (GoogleChatBaseException.given msg) as [m |] eqn:Hgiven;
      [| now split].
    split; [now rewrite dom_alter_L |].
    intros key info. rewrite lookup_alter. case_decide as Hkey; [| apply IH].
    subst key. destruct (codes !! (code, Cls.name cls)) as [info0 |] eqn:Hold;
      [| discriminate].
    intros [= <-]. destruct (IH _ _ Hold) as [_ Hrem].
    split; [exact (given_Some _ _ Hgiven) | exact Hrem].
Qed.

(** X12. Over a run the shared error table keeps the three keys it is
    written with, and every entry keeps its remediation and has a message
    that is not empty; so every Google Chat exception, whatever its class,
    its code and the message it is given, has a message that is not empty. *)
Theorem X12_error_table_invariant (codes : error_codes) :
  reachable codes ->
  dom codes = dom GoogleChatBaseException.GOOGLE_CHAT_ERROR_CODES
  /\ (forall key info,
        codes !! key = Some info ->
        message info <> ""
        /\ remediation <$> (GoogleChatBaseException.GOOGLE_CHAT_ERROR_CODES !! key)
           = Some (remediation info))
  /\ (forall cls code file original_exception message e codes',
        GoogleChatBaseException.__init__ cls code file original_exception message
          codes = (Return e, codes') ->
        exc_message e <> "" /\ reachable codes').
Proof.
  intros Hreach. destruct (reachable_invariant codes Hreach) as [Hdom Hentries].
  split; [exact Hdom |]. split; [exact Hentries |].
  intros cls code file o msg e codes' Hinit.
  split; [| now apply (reachable_construct cls code file o msg codes e)].
  rewrite init_unfold in Hinit. injection Hinit as <- _.
  unfold built, built_info. cbn [exc_message].
  destruct (GoogleChatBaseException.given msg) as [m |] eqn:Hgiven.
  - exact (given_Some _ _ Hgiven).
  - destruct (codes !! (code, Cls.name cls)) as [info |] eqn:Hold; cbn.
    + now destruct (Hentries _ _ Hold).
    + discriminate.
Qed.

(** After a rejected response: the base class constructed with an unknown
    code and an empty message still has a message. *)
Lemma X12_error_table_invariant_witness :
  exists codes e codes',
    reachable codes
    /\ GoogleChatBaseException.__init__ Cls.GoogleChatBaseException 9099 None None
         (Some "") codes = (Return e, codes')
    /\ exc_message e <> ""
    /\ dom codes' = dom GoogleChatBaseException.GOOGLE_CHAT_ERROR_CODES.
Proof.
  set (codes := updated_codes Cls.GoogleChatSendMessageError 9002
                  (Some "Google Chat webhook returned 500: oops")
                  GoogleChatBaseException.GOOGLE_CHAT_ERROR_CODES).
  assert (reachable codes) as Hreach.
  { exact (reachable_construct Cls.GoogleChatSendMessageError 9002 (Some this_file)
             None (Some "Google Chat webhook returned 500: oops") _ _ _
             reachable_initial (init_unfold _ _ _ _ _ _)). }
  destruct (X12_error_table_invariant codes Hreach) as (_ & _ & Hinit).
  exists codes, (built Cls.GoogleChatBaseException 9099 None None (Some "") codes),
    (updated_codes Cls.GoogleChatBaseException 9099 (Some "") codes).
  split; [exact Hreach |]. split; [apply init_unfold |].
  destruct (Hinit Cls.GoogleChatBaseException 9099 None None (Some "") _ _
              (init_unfold Cls.GoogleChatBaseException 9099 None None (Some "") codes))
    as [Hmessage Hreach'].
  split; [exact Hmessage |].
  exact (proj1 (X12_error_table_invariant _ Hreach')).
Defined.

(** X13. For an invalid URL [test_connection] reports the error without
    posting anything: its result is the same whatever the network would
    answer. *)
Theorem X13_test_connection_no_post (cfg1 cfg2 : Config) (url : Py.value)
    (raise_on_exception : bool) (codes : error_codes) :
  ~ valid_url url ->
  test_connection cfg1 url raise_on_exception codes
  = test_connection cfg2 url raise_on_exception codes.
Proof.
  intros Hv. destruct (validate_rejects url codes Hv) as (m & _ & Hrun).
  unfold test_connection. unfold_monad. now rewrite Hrun.
Qed.

(** The URL [https://invalid] of the tests, with a webhook that would accept
    and with a network that times out. *)
Lemma X13_test_connection_no_post_witness :
  test_connection (sample_config (Return response_ok)) (Py.VStr "https://invalid")
    false GoogleChatBaseException.GOOGLE_CHAT_ERROR_CODES
  = test_connection (sample_config (Raise timeout_error)) (Py.VStr "https://invalid")
      false GoogleChatBaseException.GOOGLE_CHAT_ERROR_CODES.
Proof.
  apply X13_test_connection_no_post.
  intros (s & [= <-] & _ & Hp). discriminate Hp.
Defined.

(** ** The percentage is a number *)

Lemma shr_1_non_negative (mrs : shr_record) :
  0 <= shr_m mrs -> 0 <= shr_m (shr_1 mrs).
Proof.
  destruct mrs as [m r s]. cbn [shr_m]. intros Hm.
  destruct m as [| [p | p |] | p]; cbn; lia.
Qed.

Lemma iter_shr_1_non_negative (p : positive) (mrs : shr_record) :
  0 <= shr_m mrs -> 0 <= shr_m (SpecFloat.iter_pos shr_1 p mrs).
Proof.
  revert mrs. induction p as [p IH | p IH |]; intros mrs Hm; cbn [SpecFloat.iter_pos].
  - apply IH, IH. now apply shr_1_non_negative.
  - now apply IH, IH.
  - now apply shr_1_non_negative.
Qed.

Lemma shr_fexp_non_negative (m e : Z) (l : location) :
  0 <= m -> 0 <= shr_m (fst (shr_fexp PyFloat.prec PyFloat.emax m e l)).
Proof.
  intros Hm. unfold shr_fexp, shr.
  assert (0 <= shr_m (shr_record_of_loc m l)) as Hrecord
    by (now destruct l as [| []]).
  destruct (_ - e) as [| p | p]; cbn [fst]; try exact Hrecord.
  now apply iter_shr_1_non_negative.
Qed.

Lemma round_nearest_even_non_negative (m : Z) (l : location) :
  0 <= m -> 0 <= round_nearest_even m l.
Proof.
  intros Hm. destruct l as [| []]; cbn; try lia. destruct (Z.even m); lia.
Qed.

(** Rounding a mantissa that is not negative gives a number. *)
Lemma binary_round_aux_number (sx : bool) (mx ex : Z) (lx : location) :
  0 <= mx -> binary_round_aux PyFloat.prec PyFloat.emax sx mx ex lx <> S754_nan.
Proof.
  intros Hm. unfold binary_round_aux.
  pose proof (shr_fexp_non_negative mx ex lx Hm) as H1.
  destruct (shr_fexp PyFloat.prec PyFloat.emax mx ex lx) as [mrs' e']. cbn [fst] in H1.
  pose proof (shr_fexp_non_negative _ e' loc_Exact
                (round_nearest_even_non_negative _ (loc_of_shr_record mrs') H1)) as H2.
  destruct (shr_fexp PyFloat.prec PyFloat.emax _ e' loc_Exact) as [mrs'' e''].
  cbn [fst] in H2. destruct (shr_m mrs'') as [| m | m]; [discriminate | | lia].
  destruct (e'' <=? _); discriminate.
Qed.

Lemma nearest_number (n d : Z) : d <> 0 -> PyFloat.nearest n d <> S754_nan.
Proof.
  intros Hd. unfold PyFloat.nearest.
  destruct d as [| d | d]; [contradiction | |];
    destruct n as [| n | n]; cbn [PyFloat.exact_int SFdiv]; try discriminate;
    unfold SFdiv_core_binary;
    match goal with
    | |- context [Z.div_eucl ?a ?b] =>
        pose proof (Z.div_pos a b) as Hq; unfold Z.div in Hq;
        destruct (Z.div_eucl a b) as [q r]; cbn [fst] in Hq;
        apply binary_round_aux_number, Hq; [| lia];
        destruct (_ - _ - _); [lia | apply Z.shiftl_nonneg; lia | lia]
    end.
Qed.

Lemma mul_int_number (x : PyFloat.float) :
  x <> S754_nan -> PyFloat.mul_int x 100 <> S754_nan.
Proof.
  intros Hx. unfold PyFloat.mul_int.
  let hundred := eval vm_compute in (PyFloat.of_int 100) in
  change (PyFloat.of_int 100) with hundred.
  destruct x as [s | s | | s m e]; cbn [SFmul]; try discriminate; [contradiction |].
  apply binary_round_aux_number. lia.
Qed.

Lemma round2_number (x : PyFloat.float) :
  x <> S754_nan -> PyFloat.round2 x <> S754_nan.
Proof.
  intros Hx. destruct x as [s | s | | s m e]; cbn [PyFloat.round2]; try assumption.
  match goal with |- context [match ?k with _ => _ end] => destruct k as [| p | p] end;
    try discriminate.
  destruct s;
    [apply (nearest_number (Z.neg p) 100) | apply (nearest_number (Z.pos p) 100)];
    discriminate.
Qed.

Lemma not_nan_text (x y : string) (c : ascii) :
  c <> "n"%char -> c <> "a"%char -> x ++ String c y <> "nan".
Proof.
  intros Hn Ha. destruct x as [| x1 [| x2 [| x3 [| x4 x]]]]; intros [= ? ?];
    subst; contradiction || discriminate.
Qed.

(** No float prints as [nan] but NaN. *)
Lemma repr_nan (x : PyFloat.float) : x <> S754_nan -> PyFloat.repr x <> "nan".
Proof.
  intros Hx. destruct x as [[] | [] | | s m e]; try discriminate; [contradiction |].
  cbn [PyFloat.repr]. destruct (PyFloat.shortest_digits m e) as [ds pt].
  destruct s; [discriminate |]. change ("" ++ ?t) with t.
  unfold PyFloat.format_digits.
  destruct (_ || _).
  - rewrite <- append_assoc. now apply not_nan_text.
  - destruct (pt <=? 0); [discriminate |].
    destruct (_ <=? pt).
    + rewrite <- append_assoc. now apply not_nan_text.
    + now apply not_nan_text.
Qed.

(** X14. The percentage is never NaN and never prints as [nan], whatever the
    two counts; it is a zero when the count is 0 and the total is not, and it
    can be infinite: a count near the largest float, multiplied by 100,
    prints as [inf]. *)
Theorem X14_percentage_number (count total : Z) :
  __calculate_percentage count total <> S754_nan
  /\ PyFloat.repr (__calculate_percentage count total) <> "nan"
  /\ (total <> 0 ->
      __calculate_percentage 0 total = S754_zero (total <? 0))
  /\ PyFloat.repr (__calculate_percentage (10 ^ 308) 1) = "inf".
Proof.
  assert (__calculate_percentage count total <> S754_nan) as Hnumber.
  { unfold __calculate_percentage. destruct (negb _); [discriminate |].
    unfold percentage_expression, PyFloat.int_truediv.
    destruct (Z.eqb_spec total 0) as [-> | Htotal]; [discriminate |].
    pose proof (nearest_number count total Htotal) as Hq.
    destruct (PyFloat.nearest count total) as [s | s | | s m e] eqn:Hnearest;
      try discriminate; try contradiction;
      now apply round2_number, mul_int_number. }
  split; [exact Hnumber |]. split; [now apply repr_nan |].
  split; [| vm_compute; reflexivity].
  intros Htotal. rewrite (calculate_percentage_total _ _ Htotal).
  destruct total as [| p | p]; [contradiction | reflexivity | reflexivity].
Qed.
